(** * The LottieFiles adapter (lottieAdapter.js): search and import

    A shallow embedding of the adapter's three functions, [retry],
    [searchLottieFiles] and [importLottieAnimation], and of the JavaScript
    values they manipulate, followed by the properties of the import
    pipeline stated in the design document. *)

From Stdlib Require Import ZArith String Ascii Strings.Byte List Lia Bool.
From Stdlib Require Import DecimalString.
From stdpp Require Import base gmap strings list.
From Equations Require Import Equations.

Set Warnings "-register-all".

Local Open Scope string_scope.
Local Open Scope Z_scope.

(** ** JavaScript values

    What [JSON.parse] can return, plus [undefined]. Numbers are restricted
    to integers. An object lists its own properties in the order
    [Object.keys] enumerates them, each key once. *)

Inductive value : Type :=
| VUndef
| VNull
| VBool (b : bool)
| VNum (n : Z)
| VStr (s : string)
| VArr (elems : list value)
| VObj (props : list (string * value)).

(** Thrown values: an [Error] (or subclass) with its [message], and the
    [status] property the adapter attaches to provider failures. *)
Record exn : Type :=
  Exn { exn_name : string; message : string; status : option Z }.

Definition Error (msg : string) : exn := Exn "Error" msg None.
Definition TypeError (msg : string) : exn := Exn "TypeError" msg None.

Inductive Result (A : Type) : Type :=
| Ok (a : A)
| Throw (e : exn).
Arguments Ok {A} a.
Arguments Throw {A} e.

Module JS.

(** ToBoolean *)
Definition truthy (v : value) : bool :=
  match v with
  | VUndef | VNull => false
  | VBool b => b
  | VNum n => negb (n =? 0)
  | VStr s => negb (String.eqb s "")
  | VArr _ | VObj _ => true
  end.

(** [a || b] and [a && b] on already evaluated operands; the adapter's
    right operands are effect free except for property reads, which the
    callers guard as the source does. *)
Definition or (a b : value) : value := if truthy a then a else b.
Definition and (a b : value) : value := if truthy a then b else a.

Definition is_nullish (v : value) : bool :=
  match v with VUndef | VNull => true | _ => false end.

Fixpoint lookup (k : string) (props : list (string * value)) : value :=
  match props with
  | [] => VUndef
  | (k', v) :: rest => if String.eqb k k' then v else lookup k rest
  end.

Definition num_to_string (n : Z) : string :=
  NilZero.string_of_int (Z.to_int n).

(** The characters of a string as one-character strings. *)
Fixpoint chars (s : string) : list value :=
  match s with
  | EmptyString => []
  | String c rest => VStr (String c EmptyString) :: chars rest
  end.

Fixpoint index_from (i : Z) (l : list value) : list (string * value) :=
  match l with
  | [] => []
  | v :: rest => (num_to_string i, v) :: index_from (i + 1) rest
  end.

(** The pairs [(k, o[k])] for [k] of [Object.keys(o)], [o] not nullish. *)
Definition own_entries (o : value) : list (string * value) :=
  match o with
  | VObj props => map (fun kv => (fst kv, lookup (fst kv) props)) props
  | VArr elems => index_from 0 elems
  | VStr s => index_from 0 (chars s)
  | _ => []
  end.

(** [o.k] for a property name [k] that is neither an index nor [length]
    nor inherited from a prototype (every name the adapter reads is such
    a name); [None] is the TypeError of reading a property of [undefined]
    or [null]. *)
Definition get_opt (k : string) (o : value) : option value :=
  match o with
  | VUndef | VNull => None
  | VObj props => Some (lookup k props)
  | _ => Some VUndef
  end.

Definition get (k : string) (o : value) : Result value :=
  match get_opt k o with
  | Some v => Ok v
  | None => Throw (TypeError ("Cannot read properties of " ++
              (if o is VNull then "null" else "undefined") ++
              " (reading '" ++ k ++ "')"))
  end.

(** [o.k] where the source has established that [o] is not nullish
    (a guarding [&&], or [?.] which yields [undefined] instead). *)
Definition field (k : string) (o : value) : value :=
  default VUndef (get_opt k o).

(** [o?.k] *)
Definition opt_chain (k : string) (o : value) : value := field k o.

Definition join_with (sep : string) (parts : list string) : string :=
  match parts with
  | [] => ""
  | p :: rest => fold_left (fun acc q => acc ++ sep ++ q) rest p
  end.

(** The string that the conversion of [v] to a string yields when it
    completes (see [ToString] below for when it does): an array joins its
    elements with commas, [null] and [undefined] elements being empty. *)
Fixpoint to_string (v : value) : string :=
  match v with
  | VUndef => "undefined"
  | VNull => "null"
  | VBool true => "true"
  | VBool false => "false"
  | VNum n => num_to_string n
  | VStr s => s
  | VArr elems =>
      join_with ","
        (map (fun e => if is_nullish e then "" else to_string e) elems)
  | VObj _ => "[object Object]"
  end.

Definition has_own (k : string) (props : list (string * value)) : bool :=
  existsb (fun kv => String.eqb k (fst kv)) props.

(** Whether the conversion completes. An object is converted by calling
    its [toString]; an own property of that name in a parsed document is
    never a function and hides the inherited method, after which
    [valueOf] does not give a primitive either. An array converts each of
    its elements. *)
Fixpoint convertible (v : value) : bool :=
  match v with
  | VArr elems => forallb convertible elems
  | VObj props => negb (has_own "toString" props)
  | _ => true
  end.

(** [String(v)] *)
Definition ToString (v : value) : Result string :=
  if convertible v then Ok (to_string v)
  else Throw (TypeError "Cannot convert object to primitive value").

(** SameValueZero, the equality of [Set]: primitives by value; two
    arrays or objects met at different places of a parsed document are
    different references. *)
Definition same_value_zero (a b : value) : bool :=
  match a, b with
  | VUndef, VUndef | VNull, VNull => true
  | VBool x, VBool y => Bool.eqb x y
  | VNum x, VNum y => x =? y
  | VStr x, VStr y => String.eqb x y
  | _, _ => false
  end.

(** [[...new Set(l)]]: first occurrences, in order. *)
Fixpoint set_dedup_acc (seen : list value) (l : list value) : list value :=
  match l with
  | [] => []
  | v :: rest =>
      if existsb (same_value_zero v) seen then set_dedup_acc seen rest
      else v :: set_dedup_acc (v :: seen) rest
  end.
Definition set_dedup (l : list value) : list value := set_dedup_acc [] l.

(** [s.includes(t)] and [s.endsWith(t)] on strings *)
Fixpoint includes (s t : string) : bool :=
  String.prefix t s ||
  match s with
  | EmptyString => false
  | String _ rest => includes rest t
  end.

Definition ends_with (s t : string) : bool :=
  let ls := String.length s in
  let lt := String.length t in
  (lt <=? ls)%nat && String.eqb (substring (ls - lt)%nat lt s) t.

End JS.

(** ** Asynchronous functions

    An [async] function is a state transformer over whatever it can
    observe and change (network, timers, disk, a caller's variables) that
    either resolves to a value or rejects with a thrown one. [await] is
    sequencing. *)

Definition Async (S A : Type) : Type := S -> Result A * S.

Definition resolve {S A} (a : A) : Async S A := fun s => (Ok a, s).
Definition reject {S A} (e : exn) : Async S A := fun s => (Throw e, s).
Definition await {S A B} (c : Async S A) (k : A -> Async S B) : Async S B :=
  fun s =>
    match c s with
    | (Ok a, s') => k a s'
    | (Throw e, s') => (Throw e, s')
    end.
Definition lift {S A} (r : Result A) : Async S A := fun s => (r, s).

Notation "'let*' x ':=' c 'in' k" := (await c (fun x => k))
  (at level 10, x pattern, c at level 100, k at level 200).

(** ** [retry(fn, times, delayMs)] *)

(** Case analysis on a computed boolean that keeps the equation. *)
Definition inspect {A : Type} (x : A) : { y : A | x = y } := exist _ x eq_refl.

Section Retry.
Context {S A : Type}.
(** [await new Promise(r => setTimeout(r, ms))] *)
Variable sleep : Z -> S -> S.

(** The [while (true)] loop, from the value [attempt] has on entry. A
    failed attempt that is not the last increases [attempt], which stays
    below [times]. *)
Equations? retry_from (fn : Async S A) (times delayMs attempt : Z) (s : S)
  : Result A * S by wf (Z.to_nat (times - attempt)) lt :=
  retry_from fn times delayMs attempt s with fn s => {
    | (Ok v, s') => (Ok v, s');
    | (Throw err, s') with inspect (attempt + 1 >=? times) => {
        | exist _ true _ => (Throw err, s');
        | exist _ false Hlt =>
            retry_from fn times delayMs (attempt + 1)
              (sleep (delayMs * (attempt + 1)) s') } }.
Proof. lia. Qed.

Definition retry (fn : Async S A) (times delayMs : Z) : Async S A :=
  retry_from fn times delayMs 0.

End Retry.

(** ** Library functions the adapter calls

    [encodeURIComponent] and the SHA-1 digest are fixed functions and are
    written out; compression, the JSON codec and path joining are taken
    from the runtime. *)

Module Hex.
Definition digit (upper : bool) (d : Z) : ascii :=
  if d <? 10 then ascii_of_N (Z.to_N (48 + d))
  else ascii_of_N (Z.to_N ((if upper then 55 else 87) + d)).

Definition is_lower_hex (c : ascii) : bool :=
  let n := Z.of_N (N_of_ascii c) in
  ((48 <=? n) && (n <=? 57)) || ((97 <=? n) && (n <=? 102)).
End Hex.

(** [encodeURIComponent(s)] for a well-formed string, on its UTF-8 bytes:
    letters, digits and [- _ . ! ~ * ' ( )] are kept, every other byte
    becomes [%XX]. *)
Definition uri_unreserved (c : ascii) : bool :=
  let n := Z.of_N (N_of_ascii c) in
  ((48 <=? n) && (n <=? 57)) || ((65 <=? n) && (n <=? 90)) ||
  ((97 <=? n) && (n <=? 122)) ||
  existsb (Z.eqb n) [45; 95; 46; 33; 126; 42; 39; 40; 41].

Fixpoint encodeURIComponent (s : string) : string :=
  match s with
  | EmptyString => EmptyString
  | String c rest =>
      if uri_unreserved c then String c (encodeURIComponent rest)
      else
        let n := Z.of_N (N_of_ascii c) in
        String "%" (String (Hex.digit true (n / 16))
                   (String (Hex.digit true (n mod 16))
                           (encodeURIComponent rest)))
  end.

(** [crypto.createHash('sha1').update(bytes).digest('hex')] (FIPS 180-4). *)
Module SHA1.
Definition w32 (x : Z) : Z := Z.land x 4294967295.
Definition rotl (n x : Z) : Z :=
  w32 (Z.lor (Z.shiftl x n) (Z.shiftr x (32 - n))).
Definition add32 (x y : Z) : Z := w32 (x + y).

(** big-endian bytes of [x], [n] of them *)
Fixpoint be_bytes (n : nat) (x : Z) : list Z :=
  match n with
  | O => []
  | S n' => (Z.shiftr x (8 * Z.of_nat n') mod 256) :: be_bytes n' x
  end.

Definition pad (msg : list Z) : list Z :=
  let len := Z.of_nat (length msg) in
  let zeros := Z.to_nat ((55 - len) mod 64) in
  (msg ++ 128 :: repeat 0 zeros ++ be_bytes 8 (8 * len))%list.

Fixpoint be_word (bs : list Z) (acc : Z) : Z :=
  match bs with
  | [] => acc
  | b :: rest => be_word rest (acc * 256 + b)
  end.

(** [n] big-endian 32-bit words from the front of [bs] *)
Fixpoint words (n : nat) (bs : list Z) : list Z :=
  match n with
  | O => []
  | S n' => be_word (firstn 4 bs) 0 :: words n' (skipn 4 bs)
  end.

(** the message schedule, most recent word first *)
Definition extend (rev_w : list Z) : list Z :=
  rotl 1 (Z.lxor (Z.lxor (nth 2 rev_w 0) (nth 7 rev_w 0))
                 (Z.lxor (nth 13 rev_w 0) (nth 15 rev_w 0))) :: rev_w.

Definition schedule (block : list Z) : list Z :=
  rev (Nat.iter 64 extend (rev (words 16 block))).

Definition state : Type := Z * Z * Z * Z * Z.

Definition round (t : Z) (st : state) (w : Z) : state :=
  let '(a, b, c, d, e) := st in
  let '(f, k) :=
    if t <? 20 then
      (Z.lor (Z.land b c) (Z.land (Z.lxor b 4294967295) d), 1518500249)
    else if t <? 40 then (Z.lxor (Z.lxor b c) d, 1859775393)
    else if t <? 60 then
      (Z.lor (Z.lor (Z.land b c) (Z.land b d)) (Z.land c d), 2400959708)
    else (Z.lxor (Z.lxor b c) d, 3395469782) in
  (add32 (add32 (add32 (add32 (rotl 5 a) f) e) k) w, a, rotl 30 b, c, d).

Fixpoint rounds (t : Z) (ws : list Z) (st : state) : state :=
  match ws with
  | [] => st
  | w :: rest => rounds (t + 1) rest (round t st w)
  end.

Definition compress (h : state) (block : list Z) : state :=
  let '(h0, h1, h2, h3, h4) := h in
  let '(a, b, c, d, e) := rounds 0 (schedule block) h in
  (add32 h0 a, add32 h1 b, add32 h2 c, add32 h3 d, add32 h4 e).

Fixpoint blocks (n : nat) (bs : list Z) (h : state) : state :=
  match n with
  | O => h
  | S n' => blocks n' (skipn 64 bs) (compress h (firstn 64 bs))
  end.

Definition init : state :=
  (1732584193, 4023233417, 2562383102, 271733878, 3285377520).

Definition digest (msg : list byte) : state :=
  let padded := pad (map (fun b => Z.of_N (Byte.to_N b)) msg) in
  blocks (length padded / 64) padded init.

Definition hex_word (w : Z) : list ascii :=
  map (fun i => Hex.digit false (Z.shiftr w (4 * i) mod 16))
      [7; 6; 5; 4; 3; 2; 1; 0].

Definition hex (msg : list byte) : string :=
  let '(h0, h1, h2, h3, h4) := digest msg in
  string_of_list_ascii
    (hex_word h0 ++ hex_word h1 ++ hex_word h2 ++ hex_word h3 ++
     hex_word h4)%list.
End SHA1.

(** The remaining library functions. [gzip] is
    [zlib.gzip(_, { level: Z_BEST_COMPRESSION })], [dirname] is
    [__dirname]. *)
Class Runtime : Type := {
  gzip : list byte -> list byte;
  JSON_parse : string -> Result value;
  JSON_stringify : value -> string;
  path_join : string -> string -> string;
  dirname : string
}.

(** ** The outside world *)

Module Response.
Record t : Type := { status : Z; body : string }.
(** [res.ok] *)
Definition ok (r : t) : bool := (200 <=? status r) && (status r <? 300).
(** [await res.text()], [await res.buffer()] *)
Definition text (r : t) : string := body r.
Definition buffer (r : t) : list byte := list_byte_of_string (body r).
End Response.

Record Request : Type := { url : string; Authorization : string }.

Inductive Outcome : Type :=
| Resolves (r : Response.t)
| Rejects (e : exn).

Record PutObjectCommand : Type := {
  Bucket : string;
  Key : string;
  Body : option (list byte);
  ContentType : option string;
  ContentEncoding : option string;
  ACL : option string
}.

(** [network n rq] is what the [n]-th [fetch] of a run (counting from 0)
    settles to when it asks for [rq]; the fault fields say which disk and
    object store operations reject; the other fields record what the run
    has done so far. *)
Record World : Type := {
  network : nat -> Request -> Outcome;
  mkdir_fault : string -> option exn;
  write_fault : string -> option exn;
  send_fault : PutObjectCommand -> option exn;
  presign_fault : PutObjectCommand -> option exn;
  now : string;
  requests : list Request;
  timers : list Z;
  directories : list string;
  files : gmap string (list byte);
  sent : list PutObjectCommand
}.

Definition with_requests (w : World) (r : list Request) : World :=
  {| network := network w; mkdir_fault := mkdir_fault w;
     write_fault := write_fault w; send_fault := send_fault w;
     presign_fault := presign_fault w; now := now w;
     requests := r; timers := timers w; directories := directories w;
     files := files w; sent := sent w |}.

Definition with_timers (w : World) (t : list Z) : World :=
  {| network := network w; mkdir_fault := mkdir_fault w;
     write_fault := write_fault w; send_fault := send_fault w;
     presign_fault := presign_fault w; now := now w;
     requests := requests w; timers := t; directories := directories w;
     files := files w; sent := sent w |}.

Definition with_directories (w : World) (d : list string) : World :=
  {| network := network w; mkdir_fault := mkdir_fault w;
     write_fault := write_fault w; send_fault := send_fault w;
     presign_fault := presign_fault w; now := now w;
     requests := requests w; timers := timers w; directories := d;
     files := files w; sent := sent w |}.

Definition with_files (w : World) (f : gmap string (list byte)) : World :=
  {| network := network w; mkdir_fault := mkdir_fault w;
     write_fault := write_fault w; send_fault := send_fault w;
     presign_fault := presign_fault w; now := now w;
     requests := requests w; timers := timers w;
     directories := directories w; files := f; sent := sent w |}.

Definition with_sent (w : World) (s : list PutObjectCommand) : World :=
  {| network := network w; mkdir_fault := mkdir_fault w;
     write_fault := write_fault w; send_fault := send_fault w;
     presign_fault := presign_fault w; now := now w;
     requests := requests w; timers := timers w;
     directories := directories w; files := files w; sent := s |}.

(** [fetch(url, { headers: { Authorization } })] *)
Definition fetch (u : string) (auth : string) : Async World Response.t :=
  fun w =>
    let rq := {| url := u; Authorization := auth |} in
    let w' := with_requests w (requests w ++ [rq])%list in
    match network w (length (requests w)) rq with
    | Resolves r => (Ok r, w')
    | Rejects e => (Throw e, w')
    end.

(** [await new Promise(r => setTimeout(r, ms))] *)
Definition setTimeout (ms : Z) (w : World) : World :=
  with_timers w (timers w ++ [ms])%list.

(** [fs.mkdir(dir, { recursive: true })], [fs.writeFile(path, data)] *)
Definition fs_mkdir (dir : string) : Async World unit :=
  fun w =>
    match mkdir_fault w dir with
    | Some e => (Throw e, w)
    | None => (Ok tt, with_directories w (directories w ++ [dir])%list)
    end.

Definition fs_writeFile (path : string) (data : list byte)
  : Async World unit :=
  fun w =>
    match write_fault w path with
    | Some e => (Throw e, w)
    | None => (Ok tt, with_files w (<[path := data]> (files w)))
    end.

(** [s3.send(cmd)], [getSignedUrl(s3, cmd, opts)] *)
Definition s3_send (cmd : PutObjectCommand) : Async World unit :=
  fun w =>
    match send_fault w cmd with
    | Some e => (Throw e, w)
    | None => (Ok tt, with_sent w (sent w ++ [cmd])%list)
    end.

Definition getSignedUrl (cmd : PutObjectCommand) : Async World unit :=
  fun w =>
    match presign_fault w cmd with
    | Some e => (Throw e, w)
    | None => (Ok tt, w)
    end.

(** [process.env] and the module's top-level bindings *)
Record Env : Type := {
  LOTTIE_API_KEY : option string;
  LOTTIE_API_BASE : option string;
  S3_BUCKET : option string;
  AWS_REGION : option string
}.

(** truthiness of an environment variable or an optional string option *)
Definition is_set (v : option string) : bool :=
  match v with
  | Some s => negb (String.eqb s "")
  | None => false
  end.

(** [v || d] *)
Definition or_else (v : option string) (d : string) : string :=
  match v with
  | Some s => if String.eqb s "" then d else s
  | None => d
  end.

Record S3Client : Type := { region : string }.

Record Module_ : Type := {
  DEFAULT_CACHE_DIR : string;
  LOTTIE_BASE : string;
  s3 : option S3Client
}.

Definition load {rt : Runtime} (env : Env) : Module_ :=
  {| DEFAULT_CACHE_DIR := path_join (path_join dirname "cache") "lottie";
     LOTTIE_BASE := or_else (LOTTIE_API_BASE env)
                            "https://api.lottiefiles.com/v2";
     s3 := if is_set (S3_BUCKET env)
           then Some {| region := or_else (AWS_REGION env) "us-east-1" |}
           else None |}.

Definition ensureCacheDir (m : Module_) : Async World unit :=
  fs_mkdir (DEFAULT_CACHE_DIR m).

(** ** [searchLottieFiles] *)

Module SearchResult.
Record meta_t : Type := { duration_ms : value; frames : value }.
Record t : Type := {
  provider : string;
  providerId : string;
  title : value;
  type : string;
  thumbnail : value;
  preview : value;
  license : value;
  tags : value;
  score : Z;
  meta : meta_t
}.
End SearchResult.

Module SearchResponse.
Record t : Type := {
  query : string;
  page : value;
  per_page : value;
  total : value;
  results : list SearchResult.t
}.
End SearchResponse.

(** [item.id || item._id || item.uid || item.uuid], for an [item] that is
    not nullish. *)
Definition item_id (item : value) : value :=
  JS.or (JS.or (JS.or (JS.field "id" item) (JS.field "_id" item))
               (JS.field "uid" item))
        (JS.field "uuid" item).

(** The callback of [(json.data || []).map(...)]. The object literal
    evaluates [item.id] first, which throws when [item] is [null]; after
    it every read of [item] is safe, and the nested reads are guarded by
    [&&] or [?.]. [String(...)] of the identifier throws when that is an
    object that cannot be converted. *)
Definition normalize_item (item : value) : Result SearchResult.t :=
  match JS.get "id" item with
  | Throw e => Throw e
  | Ok id =>
      let f k := JS.field k item in
      match JS.ToString (JS.or (JS.or (JS.or id (f "_id")) (f "uid"))
                               (f "uuid")) with
      | Throw e => Throw e
      | Ok providerId =>
      Ok {| SearchResult.provider := "lottiefiles";
            SearchResult.providerId := providerId;
            SearchResult.title :=
              JS.or (JS.or (f "title") (f "name")) (VStr "Lottie");
            SearchResult.type := "lottie";
            SearchResult.thumbnail :=
              JS.or (JS.or (f "thumbnail") (f "preview"))
                    (JS.and (f "images") (JS.field "thumbnail" (f "images")));
            SearchResult.preview :=
              JS.or (JS.or (f "preview")
                           (JS.opt_chain "url" (JS.opt_chain "json" (f "files"))))
                    VNull;
            SearchResult.license :=
              JS.or (JS.or (JS.and (f "license") (JS.field "name" (f "license")))
                           (f "license"))
                    (VStr "unknown");
            SearchResult.tags :=
              JS.or (JS.or (f "tags")
                           (JS.and (f "meta") (JS.field "tags" (f "meta"))))
                    (VArr []);
            SearchResult.score := 1;
            SearchResult.meta :=
              {| SearchResult.duration_ms :=
                   JS.or (JS.or (f "duration_ms") (f "duration")) VNull;
                 SearchResult.frames := JS.or (f "frames") VNull |} |}
      end
  end.

(** [Array.prototype.map] with a callback that may throw *)
Fixpoint map_items (l : list value) : Result (list SearchResult.t) :=
  match l with
  | [] => Ok []
  | item :: rest =>
      match normalize_item item with
      | Throw e => Throw e
      | Ok r =>
          match map_items rest with
          | Throw e => Throw e
          | Ok rs => Ok (r :: rs)
          end
      end
  end.

(** [(json.data || []).map(...)]: only an array has [map]. *)
Definition normalize_items (data : value) : Result (list SearchResult.t) :=
  match JS.or data (VArr []) with
  | VArr l => map_items l
  | _ => Throw (TypeError "(json.data || []).map is not a function")
  end.

(** From [const json = await res.json()] to the returned object. *)
Definition normalize_response (json : value) (query : string)
    (page per_page : Z) : Result SearchResponse.t :=
  match JS.get "data" json with
  | Throw e => Throw e
  | Ok data =>
      match normalize_items data with
      | Throw e => Throw e
      | Ok items =>
          Ok {| SearchResponse.query := query;
                SearchResponse.page := JS.or (JS.field "page" json) (VNum page);
                SearchResponse.per_page :=
                  JS.or (JS.field "per_page" json) (VNum per_page);
                SearchResponse.total :=
                  JS.or (JS.field "total" json)
                        (VNum (Z.of_nat (length items)));
                SearchResponse.results := items |}
      end
  end.

Record SearchOptions : Type := { page : option Z; per_page : option Z }.

Section Search.
Context {rt : Runtime}.
Variable env : Env.
Variable m : Module_.

Definition searchLottieFiles (query : string) (opts : SearchOptions)
  : Async World SearchResponse.t :=
  let page := default 1 (page opts) in
  let per_page := default 24 (per_page opts) in
  if negb (is_set (LOTTIE_API_KEY env)) then
    reject (Error "LOTTIE_API_KEY not configured in env")
  else
    let key := or_else (LOTTIE_API_KEY env) "" in
    let url := LOTTIE_BASE m ++ "/animations?query=" ++
               encodeURIComponent query ++ "&page=" ++
               JS.num_to_string page ++ "&per_page=" ++
               JS.num_to_string per_page in
    let* res := retry setTimeout (fetch url ("Bearer " ++ key)) 3 300 in
    if negb (Response.ok res) then
      let text := Response.text res in
      reject (Exn "Error"
                  ("LottieFiles search failed: " ++
                   JS.num_to_string (Response.status res) ++ " " ++ text)
                  (Some (Response.status res)))
    else
      let* json := lift (JSON_parse (Response.text res)) in
      lift (normalize_response json query page per_page).

End Search.

(** ** [importLottieAnimation] *)

Module Phase.
(** [time] is a number of milliseconds or an event name. *)
Inductive time_t : Type := At (ms : Z) | On (event : string).
Record t : Type := {
  time : time_t;
  action : string;
  effect : string;
  pos : string;
  duration : option Z
}.
End Phase.

Module Template.
Record t : Type := { name : string; phases : list Phase.t; notes : string }.
End Template.

Module Asset.
Record t : Type := {
  name : string;
  type : string;
  mime : string;
  url : string;
  localPath : string;
  size : Z;
  etag : string
}.
End Asset.

Module Source.
Record t : Type := { provider : string; providerId : string }.
End Source.

Module Manifest.
Record t : Type := {
  id : string;
  displayName : value;
  version : value;
  license : value;
  source : Source.t;
  requiredAssets : list Asset.t;
  sequenceTemplate : option Template.t;
  importedAt : string;
  rawDetail : value
}.
End Manifest.

Record ImportOptions : Type := {
  generateTemplate : bool;
  targetS3Bucket : option string
}.

Definition manifestIdFrom (providerId hash : string) : string :=
  "lottie_import_" ++ providerId ++ "_" ++ hash.

Definition generateDefaultSequenceTemplate (effectId : string) : Template.t :=
  {| Template.name := effectId;
     Template.phases :=
       [ {| Phase.time := Phase.At 0; Phase.action := "spawn";
            Phase.effect := "lottie_charge"; Phase.pos := "attacker";
            Phase.duration := Some 600 |};
         {| Phase.time := Phase.At 600; Phase.action := "spawn";
            Phase.effect := "lottie_projectile";
            Phase.pos := "towards_target"; Phase.duration := None |};
         {| Phase.time := Phase.On "onImpact"; Phase.action := "spawn";
            Phase.effect := "lottie_impact"; Phase.pos := "target";
            Phase.duration := None |} ];
     Template.notes := "Automatically generated template for imported Lottie. Edit in UI if you want bespoke timing." |}.

(** *** Step 2: the download URL *)

(** [if (x) candidateUrls.push(x)] *)
Definition push_if (x : value) : list value :=
  if JS.truthy x then [x] else [].

(** One turn of the loop over [Object.keys(detail.files)]. *)
Definition entry_urls (entry : value) : list value :=
  if negb (JS.truthy entry) then []
  else (push_if (JS.field "url" entry) ++
        push_if (JS.field "download_url" entry))%list.

(** [candidateUrls] when the pushes are done, for a [detail] that is not
    nullish. *)
Definition candidateUrls (detail : value) : list value :=
  ((if JS.truthy (JS.field "files" detail)
    then flat_map (fun kv => entry_urls (snd kv))
                  (JS.own_entries (JS.field "files" detail))
    else []) ++
   push_if (JS.field "animation_url" detail) ++
   push_if (JS.field "download_url" detail) ++
   push_if (JS.field "preview" detail))%list.

Definition NoDownloadableAsset : exn :=
  Error "No downloadable JSON/url discovered in provider metadata. Inspect detail object for available asset links.".

(** Lines 121 to 138: the candidates, de-duplicated, or the error. The
    first read, [detail.files], throws when [detail] is [null]. *)
Definition locate (detail : value) : Result (list value) :=
  match JS.get "files" detail with
  | Throw e => Throw e
  | Ok _ =>
      let urls := List.filter JS.truthy
                              (JS.set_dedup (candidateUrls detail)) in
      match urls with
      | [] => Throw NoDownloadableAsset
      | _ => Ok urls
      end
  end.

(** [urls.find(u => u.endsWith('.json') || u.includes('json'))]; only
    strings have [endsWith]. *)
Fixpoint find_json (urls : list value) : Result value :=
  match urls with
  | [] => Ok VUndef
  | VStr s :: rest =>
      if JS.ends_with s ".json" || JS.includes s "json" then Ok (VStr s)
      else find_json rest
  | _ :: _ => Throw (TypeError "u.endsWith is not a function")
  end.

(** [urls.find(...) || urls[0]] *)
Definition pick_json_url (urls : list value) : Result value :=
  match find_json urls with
  | Throw e => Throw e
  | Ok found => Ok (JS.or found (hd VUndef urls))
  end.

(** *** Steps 4 and 5 and the file name *)

Section ImportSteps.
Context {rt : Runtime}.

(** [JSON.stringify(parsed)] *)
Definition minify (parsed : value) : string := JSON_stringify parsed.

(** [await gzip(Buffer.from(minified), ...)] *)
Definition compress (minified : string) : list byte :=
  gzip (list_byte_of_string minified).

(** [crypto.createHash('sha1').update(gz).digest('hex').slice(0, 12)] *)
Definition contentHash (gz : list byte) : string :=
  substring 0 12 (SHA1.hex gz).

Definition outName (providerId hash : string) : string :=
  "lottie_" ++ providerId ++ "_" ++ hash ++ ".json.gz".

Variable env : Env.
Variable m : Module_.

(** Step 1, [detail] included. *)
Definition fetch_detail (key providerId : string) : Async World value :=
  let detailUrl := LOTTIE_BASE m ++ "/animations/" ++
                   encodeURIComponent providerId in
  let* detailRes :=
    retry setTimeout (fetch detailUrl ("Bearer " ++ key)) 3 300 in
  if negb (Response.ok detailRes) then
    let txt := Response.text detailRes in
    reject (Exn "Error"
                ("Lottie detail fetch failed " ++
                 JS.num_to_string (Response.status detailRes) ++ ": " ++
                 txt)
                (Some (Response.status detailRes)))
  else lift (JSON_parse (Response.text detailRes)).

(** Step 3. The URL requested is [jsonUrl] itself: the selection of step
    2 only ever yields a string. *)
Definition download (key : string) (jsonUrl : value)
  : Async World (list byte) :=
  retry setTimeout
    (let* r := fetch (JS.to_string jsonUrl) ("Bearer " ++ key) in
     if negb (Response.ok r) then
       reject (Error ("download failed " ++
                      JS.num_to_string (Response.status r)))
     else resolve (Response.buffer r))
    3 400.

(** Step 4, the [try]/[catch] around [JSON.parse] *)
Definition validate (animBuffer : list byte) : Result value :=
  match JSON_parse (string_of_list_byte animBuffer) with
  | Ok parsed => Ok parsed
  | Throw err =>
      Throw (Error ("Downloaded file is not valid JSON: " ++ message err))
  end.

(** Step 6: the object store when it is configured, else the local
    file; resolves to [remoteUrl]. *)
Definition upload (options : ImportOptions) (outName localPath : string)
    (gz : list byte) : Async World string :=
  match s3 m with
  | Some client =>
      if is_set (S3_BUCKET env) then
        let bucket := or_else (targetS3Bucket options)
                              (or_else (S3_BUCKET env) "") in
        let keyName := "lottie/" ++ outName in
        let* _ := s3_send {| Bucket := bucket; Key := keyName;
                             Body := Some gz;
                             ContentType := Some "application/json";
                             ContentEncoding := Some "gzip";
                             ACL := Some "public-read" |} in
        let* signedUrl :=
          getSignedUrl {| Bucket := bucket; Key := keyName; Body := None;
                          ContentType := None; ContentEncoding := None;
                          ACL := None |} in
        resolve ("https://" ++ bucket ++ ".s3." ++
                 or_else (AWS_REGION env) "us-east-1" ++
                 ".amazonaws.com/" ++ encodeURIComponent keyName)
      else resolve ("file://" ++ localPath)
  | None => resolve ("file://" ++ localPath)
  end.

(** Step 7 *)
Definition build_manifest (providerId : string) (options : ImportOptions)
    (detail : value) (hash outName remoteUrl localPath : string)
    (gz : list byte) (importedAt : string) : Manifest.t :=
  {| Manifest.id := "lottie_import_" ++ providerId ++ "_" ++ hash;
     Manifest.displayName :=
       JS.or (JS.or (JS.field "title" detail) (JS.field "name" detail))
             (VStr ("Lottie " ++ providerId));
     Manifest.version := JS.or (JS.field "version" detail) (VStr "1");
     Manifest.license :=
       JS.or (JS.or (JS.and (JS.field "license" detail)
                            (JS.field "name" (JS.field "license" detail)))
                    (JS.field "license" detail))
             (VStr "unknown");
     Manifest.source := {| Source.provider := "lottiefiles";
                           Source.providerId := providerId |};
     Manifest.requiredAssets :=
       [ {| Asset.name := outName;
            Asset.type := "lottie";
            Asset.mime := "application/json";
            Asset.url := remoteUrl;
            Asset.localPath := localPath;
            Asset.size := Z.of_nat (length gz);
            Asset.etag := hash |} ];
     Manifest.sequenceTemplate :=
       if generateTemplate options
       then Some (generateDefaultSequenceTemplate
                    (manifestIdFrom providerId hash))
       else None;
     Manifest.importedAt := importedAt;
     Manifest.rawDetail := detail |}.

(** [new Date().toISOString()] *)
Definition date_now : Async World string := fun w => (Ok (now w), w).

(** From [const gz] to the end: steps 5 to 7 on the minified text. *)
Definition store_and_build (providerId : string) (options : ImportOptions)
    (detail : value) (minified : string) : Async World Manifest.t :=
  let gz := compress minified in
  let hash := contentHash gz in
  let outName := outName providerId hash in
  let localPath := path_join (DEFAULT_CACHE_DIR m) outName in
  let* _ := ensureCacheDir m in
  let* _ := fs_writeFile localPath gz in
  let* remoteUrl := upload options outName localPath gz in
  let* importedAt := date_now in
  resolve (build_manifest providerId options detail hash outName
                          remoteUrl localPath gz importedAt).

(** Steps 1 to 4: the detail document and the minified animation. *)
Definition acquire (providerId : string) : Async World (value * string) :=
  let key := or_else (LOTTIE_API_KEY env) "" in
  let* detail := fetch_detail key providerId in
  let* urls := lift (locate detail) in
  let* jsonUrl := lift (pick_json_url urls) in
  let* animBuffer := download key jsonUrl in
  let* parsed := lift (validate animBuffer) in
  resolve (detail, minify parsed).

Definition importLottieAnimation (providerId : string)
    (options : ImportOptions) : Async World Manifest.t :=
  if negb (is_set (LOTTIE_API_KEY env)) then
    reject (Error "LOTTIE_API_KEY not configured in env")
  else
    let* acquired := acquire providerId in
    store_and_build providerId options (fst acquired) (snd acquired).

End ImportSteps.

(** ** Counting invocations

    An operation that also counts its calls in a variable of the caller,
    as a test double would; timers leave the counter alone. *)

Section Counting.
Context {S A : Type}.
Variable sleep : Z -> S -> S.

Definition counted (fn : Async S A) : Async (S * nat) A :=
  fun sn =>
    let (r, s') := fn (fst sn) in
    (r, (s', Datatypes.S (snd sn))).

Definition counted_sleep (ms : Z) (sn : S * nat) : S * nat :=
  (sleep ms (fst sn), snd sn).

(** The state in which invocation number [k] (from 0) starts when every
    earlier one failed: after failure number [k] the loop waits
    [delayMs * k]. *)
Fixpoint state_before (fn : Async S A) (delayMs : Z) (k : nat) (s : S) : S :=
  match k with
  | O => s
  | Datatypes.S k' =>
      sleep (delayMs * Z.of_nat k) (snd (fn (state_before fn delayMs k' s)))
  end.

End Counting.

(** ** The design document's words for the asset locator

    A field is URL-shaped when it holds a non-empty (truthy) value; a
    detail object has one when some entry of [files] has a [url] or a
    [download_url], or the object itself has an [animation_url], a
    [download_url] or a [preview]. *)

Definition url_shaped (v : value) : bool := JS.truthy v.

Definition has_url_field (detail : value) : bool :=
  existsb (fun kv => url_shaped (JS.field "url" (snd kv)) ||
                     url_shaped (JS.field "download_url" (snd kv)))
          (JS.own_entries (JS.field "files" detail)) ||
  url_shaped (JS.field "animation_url" detail) ||
  url_shaped (JS.field "download_url" detail) ||
  url_shaped (JS.field "preview" detail).

(** ** A runtime and worlds to run the adapter in

    [JSON.stringify] on parsed values, a parser that knows the documents
    of the scenarios below, and a stand-in compressor that only frames its
    input. *)

Module Sample.

Definition dq : string := String (ascii_of_N 34) EmptyString.

Fixpoint escape (s : string) : string :=
  match s with
  | EmptyString => EmptyString
  | String c rest =>
      if orb (Ascii.eqb c (ascii_of_N 34)) (Ascii.eqb c (ascii_of_N 92))
      then String (ascii_of_N 92) (String c (escape rest))
      else String c (escape rest)
  end.

Definition quote (s : string) : string := dq ++ escape s ++ dq.

Fixpoint stringify (v : value) : string :=
  match v with
  | VUndef | VNull => "null"
  | VBool true => "true"
  | VBool false => "false"
  | VNum n => JS.num_to_string n
  | VStr s => quote s
  | VArr elems => "[" ++ JS.join_with "," (map stringify elems) ++ "]"
  | VObj props =>
      "{" ++ JS.join_with ","
               (map (fun '(k, x) => quote k ++ ":" ++ stringify x) props)
          ++ "}"
  end.

Definition animation : value := VObj [("v", VNum 1)].

Definition detail : value :=
  VObj [("title", VStr "Fire");
        ("files", VObj [("json", VObj [("url", VStr "https://x/a.json")])])].

Definition search_body : value :=
  VObj [("data", VArr [VObj [("id", VNum 7); ("title", VStr "Fire")];
                       VObj [("uuid", VStr "u-2")]])].

(** the same animation with insignificant white space *)
Definition animation_spaced : string :=
  "{ " ++ dq ++ "v" ++ dq ++ " : 1 }".

Definition documents : list (string * value) :=
  [(stringify animation, animation); (animation_spaced, animation);
   (stringify detail, detail); (stringify search_body, search_body)].

Definition parse (text : string) : Result value :=
  match List.find (fun d => String.eqb text (fst d)) documents with
  | Some d => Ok (snd d)
  | None => Throw (Exn "SyntaxError" "Unexpected token" None)
  end.

#[export] Instance runtime : Runtime := {|
  gzip := fun data => (x1f :: x8b :: data)%list;
  JSON_parse := parse;
  JSON_stringify := stringify;
  path_join := fun a b => a ++ "/" ++ b;
  dirname := "/srv/vfx-api"
|}.

Definition world (net : nat -> Request -> Outcome) : World :=
  {| network := net;
     mkdir_fault := fun _ => None; write_fault := fun _ => None;
     send_fault := fun _ => None; presign_fault := fun _ => None;
     now := "2024-05-01T12:00:00.000Z";
     requests := []; timers := []; directories := [];
     files := ∅; sent := [] |}.

Definition respond (st : Z) (text : string) : Outcome :=
  Resolves {| Response.status := st; Response.body := text |}.

(** a provider that answers every request with the same status *)
Definition always (st : Z) (text : string) : nat -> Request -> Outcome :=
  fun _ _ => respond st text.

(** the detail document first, then the animation as [payload] *)
Definition provider (payload : string) : nat -> Request -> Outcome :=
  fun n _ =>
    match n with
    | O => respond 200 (stringify detail)
    | _ => respond 200 payload
    end.

(** the detail document, then a failing download *)
Definition broken_download : nat -> Request -> Outcome :=
  fun n _ =>
    match n with
    | O => respond 200 (stringify detail)
    | _ => respond 500 "oops"
    end.

Definition env_local : Env :=
  {| LOTTIE_API_KEY := Some "k"; LOTTIE_API_BASE := None;
     S3_BUCKET := None; AWS_REGION := None |}.

Definition env_s3 : Env :=
  {| LOTTIE_API_KEY := Some "k"; LOTTIE_API_BASE := None;
     S3_BUCKET := Some "assets"; AWS_REGION := None |}.

Definition plain : ImportOptions :=
  {| generateTemplate := false; targetS3Bucket := None |}.
Definition with_template : ImportOptions :=
  {| generateTemplate := true; targetS3Bucket := None |}.

Definition first_page : SearchOptions :=
  {| page := Some 1; per_page := Some 24 |}.

(** an operation that fails with its call number, kept in its state *)
Definition failing : Async nat value :=
  fun n => (Throw (Error (JS.num_to_string (Z.of_nat n))), Datatypes.S n).

End Sample.

(** ** Observing runs

    The world after further requests and waits and nothing else; what a
    run leaves of the disk and of the object store. *)

Definition advanced (w : World) (reqs : list Request) (waits : list Z)
  : World :=
  with_timers (with_requests w (requests w ++ reqs)%list)
              (timers w ++ waits)%list.

Definition storage_untouched (w w' : World) : Prop :=
  files w' = files w /\ sent w' = sent w /\ directories w' = directories w.

(** No two members of the list are the same value for [Set]. *)
Inductive distinct_values : list value -> Prop :=
| distinct_nil : distinct_values []
| distinct_cons v l :
    existsb (JS.same_value_zero v) l = false ->
    distinct_values l -> distinct_values (v :: l).

(** The detail and asset requests of an import. *)
Definition detail_request (m : Module_) (key providerId : string) : Request :=
  {| url := LOTTIE_BASE m ++ "/animations/" ++ encodeURIComponent providerId;
     Authorization := "Bearer " ++ key |}.

Definition asset_request (key : string) (jsonUrl : value) : Request :=
  {| url := JS.to_string jsonUrl; Authorization := "Bearer " ++ key |}.

Definition search_request (m : Module_) (key query : string)
    (opts : SearchOptions) : Request :=
  {| url := LOTTIE_BASE m ++ "/animations?query=" ++
            encodeURIComponent query ++ "&page=" ++
            JS.num_to_string (default 1 (page opts)) ++ "&per_page=" ++
            JS.num_to_string (default 24 (per_page opts));
     Authorization := "Bearer " ++ key |}.

(** An asynchronous function keeps an invariant of the state, whether it
    resolves or rejects. *)
Definition preserves {S A : Type} (I : S -> Prop) (c : Async S A) : Prop :=
  forall s, I s -> I (snd (c s)).

(** The number of requests an asynchronous function adds, whether it
    resolves or rejects, lies between [lo] and [hi]. *)
Definition requests_within (lo hi : nat) {A : Type} (c : Async World A)
  : Prop :=
  forall w,
    (length (requests w) + lo <= length (requests (snd (c w)))
     <= length (requests w) + hi)%nat.

(** ** Further operations and worlds to run the adapter on *)

Module Fixtures.

(** fails at its first two calls, then succeeds; the state is the number
    of calls so far *)
Definition flaky : Async nat value :=
  fun n =>
    if (n <? 2)%nat
    then (Throw (Error (JS.num_to_string (Z.of_nat n))), Datatypes.S n)
    else (Ok (VNum 7), Datatypes.S n).

(** a world whose object store rejects every upload *)
Definition store_down (net : nat -> Request -> Outcome) : World :=
  {| network := net;
     mkdir_fault := fun _ => None; write_fault := fun _ => None;
     send_fault := fun _ => Some (Exn "S3ServiceException" "SlowDown" None);
     presign_fault := fun _ => None;
     now := "2024-05-01T12:00:00.000Z";
     requests := []; timers := []; directories := [];
     files := ∅; sent := [] |}.

Definition no_key : Env :=
  {| LOTTIE_API_KEY := Some ""; LOTTIE_API_BASE := None;
     S3_BUCKET := Some "assets"; AWS_REGION := None |}.

Definition to_other_bucket : ImportOptions :=
  {| generateTemplate := false; targetS3Bucket := Some "other" |}.

Definition defaults : SearchOptions := {| page := None; per_page := None |}.

(** three transport failures in a row *)
Definition unreachable : nat -> Request -> Outcome :=
  fun n _ =>
    Rejects (Exn "FetchError"
                 ("ECONNRESET " ++ JS.num_to_string (Z.of_nat n)) None).

(** the detail document, then a body that is not JSON *)
Definition garbled : nat -> Request -> Outcome :=
  fun n _ =>
    match n with
    | O => Sample.respond 200 (Sample.stringify Sample.detail)
    | _ => Sample.respond 200 "<html>"
    end.

(** the detail document, one failed download, then the animation *)
Definition second_try : nat -> Request -> Outcome :=
  fun n _ =>
    match n with
    | O => Sample.respond 200 (Sample.stringify Sample.detail)
    | 1%nat => Sample.respond 502 "bad gateway"
    | _ => Sample.respond 200 (Sample.stringify Sample.animation)
    end.

End Fixtures.

(** * Properties *)

(** ** The runtime model on known values *)

Example to_string_undefined : JS.to_string VUndef = "undefined".
Proof. reflexivity. Qed.

Example to_string_num : JS.to_string (VNum 404) = "404".
Proof. reflexivity. Qed.

Example to_string_arr :
  JS.to_string (VArr [VNum 1; VNull; VArr [VStr "a"; VStr "b"]]) = "1,,a,b".
Proof. reflexivity. Qed.

Example ToString_object :
  JS.ToString (VObj [("a", VNum 1)]) = Ok "[object Object]" /\
  JS.ToString (VObj [("toString", VNum 1)])
    = Throw (TypeError "Cannot convert object to primitive value") /\
  JS.ToString (VArr [VNum 1; VArr [VObj [("toString", VNull)]]])
    = Throw (TypeError "Cannot convert object to primitive value").
Proof. repeat split. Qed.

Example includes_json : JS.includes "https://x/a.json?x=1" "json" = true.
Proof. reflexivity. Qed.

Example ends_with_json : JS.ends_with "https://x/a.json" ".json" = true.
Proof. reflexivity. Qed.

Example sha1_abc :
  SHA1.hex (list_byte_of_string "abc")
  = "a9993e364706816aba3e25717850c26c9cd0d89d".
Proof. vm_compute. reflexivity. Qed.

Example sha1_empty : SHA1.hex [] = "da39a3ee5e6b4b0d3255bfef95601890afd80709".
Proof. vm_compute. reflexivity. Qed.

Example sha1_two_blocks :
  SHA1.hex (list_byte_of_string
    "abcdbcdecdefdefgefghfghighijhijkijkljklmklmnlmnomnopnopq")
  = "84983e441c3bd26ebaae4aa1f95129e5e54670f1".
Proof. vm_compute. reflexivity. Qed.

Example encodeURIComponent_key :
  encodeURIComponent "lottie/a b_1.json.gz" = "lottie%2Fa%20b_1.json.gz".
Proof. reflexivity. Qed.

(** ** The retry executor *)

Section RetryFacts.
Context {S A : Type} (sleep : Z -> S -> S).
Implicit Types (fn : Async S A) (s : S).

(** One turn of the loop. *)
Lemma retry_from_step fn times delayMs attempt s :
  retry_from sleep fn times delayMs attempt s =
  match fn s with
  | (Ok v, s') => (Ok v, s')
  | (Throw err, s') =>
      if attempt + 1 >=? times then (Throw err, s')
      else retry_from sleep fn times delayMs (attempt + 1)
             (sleep (delayMs * (attempt + 1)) s')
  end.
Proof.
  funelim (retry_from sleep fn times delayMs attempt s);
    rewrite ?Heq; simpl;
    try match goal with E : (_ >=? _) = _ |- _ => rewrite E end;
    reflexivity.
Qed.

(** A success is returned at once, with no wait. *)
Lemma retry_first_success fn times delayMs s v s' :
  fn s = (Ok v, s') -> retry sleep fn times delayMs s = (Ok v, s').
Proof.
  intros Hfn. unfold retry. rewrite retry_from_step, Hfn. reflexivity.
Qed.

(** With at most one attempt allowed the operation runs exactly once:
    the test [attempt >= times] comes after the first call. *)
Lemma retry_single_attempt fn times delayMs s :
  times <= 1 -> retry sleep fn times delayMs s = fn s.
Proof.
  intros Hle. unfold retry. rewrite retry_from_step.
  destruct (fn s) as [[v | err] s']; [reflexivity |].
  destruct (Z.geb_spec (0 + 1) times) as [_ | Hlt]; [reflexivity | lia].
Qed.

(** The loop invariant for an operation that keeps failing: entering
    turn [a] in the state [state_before ... a], the loop ends with what
    the last allowed invocation returns. *)
Lemma retry_from_exhausts fn delayMs s0 (n : nat) :
  (forall j, (j < n)%nat ->
     exists e, fst (fn (state_before sleep fn delayMs j s0)) = Throw e) ->
  forall k a : nat,
    (a + k + 1 = n)%nat ->
    retry_from sleep fn (Z.of_nat n) delayMs (Z.of_nat a)
      (state_before sleep fn delayMs a s0)
    = fn (state_before sleep fn delayMs (n - 1) s0).
Proof.
  intros Hfail k. induction k as [| k IH]; intros a Hn.
  - rewrite retry_from_step.
    destruct (Hfail a ltac:(lia)) as [e He].
    replace (n - 1)%nat with a by lia.
    destruct (fn (state_before sleep fn delayMs a s0)) as [r s'].
    simpl in He. subst r.
    destruct (Z.geb_spec (Z.of_nat a + 1) (Z.of_nat n)); [reflexivity | lia].
  - rewrite retry_from_step.
    destruct (Hfail a ltac:(lia)) as [e He].
    specialize (IH (Datatypes.S a) ltac:(lia)).
    simpl state_before in IH.
    destruct (fn (state_before sleep fn delayMs a s0)) as [r s'].
    simpl in He, IH. subst r.
    destruct (Z.geb_spec (Z.of_nat a + 1) (Z.of_nat n)); [lia |].
    rewrite <- IH. f_equal; [lia |]. f_equal. lia.
Qed.

End RetryFacts.

Section RetryCounting.
Context {S A : Type} (sleep : Z -> S -> S).
Implicit Types (fn : Async S A) (s : S).

Lemma counted_run fn s c :
  counted fn (s, c) = (fst (fn s), (snd (fn s), Datatypes.S c)).
Proof. unfold counted. simpl. destruct (fn s); reflexivity. Qed.

(** Counting does not disturb the operation: the counter is its number
    of calls so far. *)
Lemma state_before_counted fn delayMs s c (k : nat) :
  state_before (counted_sleep sleep) (counted fn) delayMs k (s, c)
  = (state_before sleep fn delayMs k s, (c + k)%nat).
Proof.
  induction k as [| k IH].
  - simpl. f_equal. lia.
  - cbn [state_before]. rewrite IH, counted_run.
    unfold counted_sleep. cbn [fst snd]. f_equal. lia.
Qed.

(** C3. An operation that fails at every invocation is invoked exactly
    [times] times by [retry(fn, times, delayMs)] (for [times] at least
    one), with the wait [delayMs * k] after failure number [k]; the
    rejection is the value thrown by the last invocation itself, and the
    state left is the one that invocation left. *)
Theorem retry_exhaustion fn (times delayMs : Z) s :
  1 <= times ->
  (forall k, (k < Z.to_nat times)%nat ->
     exists e, fst (fn (state_before sleep fn delayMs k s)) = Throw e) ->
  let s_last := state_before sleep fn delayMs (Z.to_nat times - 1) s in
  exists e,
    fst (fn s_last) = Throw e /\
    retry (counted_sleep sleep) (counted fn) times delayMs (s, 0%nat)
      = (Throw e, (snd (fn s_last), Z.to_nat times)) /\
    retry sleep fn times delayMs s = (Throw e, snd (fn s_last)).
Proof.
  intros Hpos Hfail s_last.
  destruct (Hfail (Z.to_nat times - 1)%nat ltac:(lia)) as [e He].
  fold s_last in He. exists e. split; [exact He |].
  set (n := Z.to_nat times).
  assert (Hn : times = Z.of_nat n) by (unfold n; lia).
  split.
  - unfold retry. rewrite Hn.
    change (s, 0%nat) with
      (state_before (counted_sleep sleep) (counted fn) delayMs 0 (s, 0%nat)).
    change 0 with (Z.of_nat 0).
    rewrite (retry_from_exhausts (counted_sleep sleep) (counted fn) delayMs
               (s, 0%nat) n) with (k := (n - 1)%nat) by
      (try lia; intros j Hj; rewrite state_before_counted, counted_run;
       exact (Hfail j Hj)).
    rewrite state_before_counted, counted_run.
    change (state_before sleep fn delayMs (n - 1) s) with s_last.
    rewrite He. do 2 f_equal. lia.
  - unfold retry. rewrite Hn.
    change s with (state_before sleep fn delayMs 0 s) at 1.
    change 0 with (Z.of_nat 0).
    rewrite (retry_from_exhausts sleep fn delayMs s n) with (k := (n - 1)%nat)
      by (try lia; exact Hfail).
    change (state_before sleep fn delayMs (n - 1) s) with s_last.
    destruct (fn s_last) as [r s']. simpl in He. subst r.
    reflexivity.
Qed.

End RetryCounting.

Lemma retry_exhaustion_witness :
  let sleep := fun (_ : Z) (n : nat) => n in
  let s_last := state_before sleep Sample.failing 300 (Z.to_nat 3 - 1) 0%nat in
  exists e,
    fst (Sample.failing s_last) = Throw e /\
    retry (counted_sleep sleep) (counted Sample.failing) 3 300 (0%nat, 0%nat)
      = (Throw e, (snd (Sample.failing s_last), Z.to_nat 3)) /\
    retry sleep Sample.failing 3 300 0%nat
      = (Throw e, snd (Sample.failing s_last)).
Proof.
  apply (retry_exhaustion (fun (_ : Z) (n : nat) => n) Sample.failing 3 300
           0%nat); [lia | intros k _; eexists; reflexivity].
Defined.

(** Three attempts: the third error comes out, after waits of 300 and 600. *)
Example retry_three_failures :
  retry (fun ms '(n, waits) => (n, (waits ++ [ms])%list))
        (fun '(n, waits) =>
           (Throw (Error (JS.num_to_string (Z.of_nat n))) : Result value,
            (Datatypes.S n, waits)))
        3 300 (0%nat, [])
  = (Throw (Error "2"), (3%nat, [300; 600])).
Proof. vm_compute. reflexivity. Qed.

(** ** Provider requests *)

(** A [fetch] that gets a response, whatever its status, resolves: the
    retried operation succeeds at its first call. *)
Lemma retry_fetch_resolves u auth times delayMs w r :
  network w (length (requests w)) {| url := u; Authorization := auth |}
    = Resolves r ->
  retry setTimeout (fetch u auth) times delayMs w
  = (Ok r, with_requests w
             (requests w ++ [{| url := u; Authorization := auth |}])%list).
Proof.
  intros Hnet. apply retry_first_success. unfold fetch. rewrite Hnet.
  reflexivity.
Qed.

(** Whenever the detail request is answered with a non-success status,
    [fetch_detail] rejects after that one request, without waiting, and
    the error carries the status and the body. *)
Lemma fetch_detail_status_failure {rt : Runtime} m key providerId w r :
  let rq := {| url := LOTTIE_BASE m ++ "/animations/" ++
                      encodeURIComponent providerId;
               Authorization := "Bearer " ++ key |} in
  network w (length (requests w)) rq = Resolves r ->
  Response.ok r = false ->
  fetch_detail m key providerId w
  = (Throw (Exn "Error"
                ("Lottie detail fetch failed " ++
                 JS.num_to_string (Response.status r) ++ ": " ++
                 Response.body r)
                (Some (Response.status r))),
     with_requests w (requests w ++ [rq])%list).
Proof.
  intros rq Hnet Hok. unfold fetch_detail, await.
  rewrite (retry_fetch_resolves _ _ _ _ _ _ Hnet), Hok. reflexivity.
Qed.

(** C1. A provider that answers with a non-success status: the search
    request and the detail request each fail after a single [fetch], with
    no wait; the rejection carries the status and the response body. *)
Theorem provider_status_failure_not_retried (rt : Runtime) :
  let w := Sample.world (Sample.always 503 "busy") in
  let env := Sample.env_local in
  let s := searchLottieFiles env (load env) "fire" Sample.first_page w in
  let i := importLottieAnimation env (load env) "abc123" Sample.plain w in
  (fst s = Throw (Exn "Error" "LottieFiles search failed: 503 busy" (Some 503))
   /\ length (requests (snd s)) = 1%nat /\ timers (snd s) = []) /\
  (fst i = Throw (Exn "Error" "Lottie detail fetch failed 503: busy" (Some 503))
   /\ length (requests (snd i)) = 1%nat /\ timers (snd i) = []).
Proof. vm_compute. repeat split. Qed.

(** The asset download, in contrast, tests the status inside the retried
    operation: three requests for the asset, with waits of 400 and 800. *)
Lemma download_status_failure_retried :
  let w := Sample.world (Sample.always 500 "oops") in
  let d := download "k" (VStr "https://x/a.json") w in
  fst d = Throw (Error "download failed 500") /\
  length (requests (snd d)) = 3%nat /\ timers (snd d) = [400; 800].
Proof. vm_compute. repeat split. Qed.

(** A rejected [fetch] (no response at all) is what the provider requests
    do retry. *)
Lemma provider_transport_failure_retried (rt : Runtime) :
  let w := Sample.world (fun _ _ => Rejects (Exn "FetchError" "ECONNRESET" None)) in
  let env := Sample.env_local in
  let s := searchLottieFiles env (load env) "fire" Sample.first_page w in
  fst s = Throw (Exn "FetchError" "ECONNRESET" None) /\
  length (requests (snd s)) = 3%nat /\ timers (snd s) = [300; 600].
Proof. vm_compute. repeat split. Qed.

(** ** Search normalization *)

Lemma get_not_nullish k o :
  JS.is_nullish o = false -> JS.get k o = Ok (JS.field k o).
Proof. destruct o; simpl; intros Hn; try discriminate; reflexivity. Qed.

Lemma get_nullish k o :
  JS.is_nullish o = true -> exists e, JS.get k o = Throw e.
Proof.
  destruct o; simpl; intros Hn; try discriminate; unfold JS.get; simpl;
    eexists; reflexivity.
Qed.

(** The callback throws only for [null] and [undefined], and for an
    identifier that cannot be converted to a string. *)
Lemma normalize_item_succeeds item :
  JS.is_nullish item = false -> JS.convertible (item_id item) = true ->
  exists r, normalize_item item = Ok r.
Proof.
  intros Hn Hid. unfold normalize_item. rewrite (get_not_nullish _ _ Hn).
  fold (item_id item). unfold JS.ToString. rewrite Hid.
  eexists; reflexivity.
Qed.

(** What a successful call of the callback returned. *)
Lemma normalize_item_ok item r :
  normalize_item item = Ok r ->
  JS.is_nullish item = false /\ JS.convertible (item_id item) = true /\
  r = {| SearchResult.provider := "lottiefiles";
         SearchResult.providerId := JS.to_string (item_id item);
         SearchResult.title :=
           JS.or (JS.or (JS.field "title" item) (JS.field "name" item))
                 (VStr "Lottie");
         SearchResult.type := "lottie";
         SearchResult.thumbnail :=
           JS.or (JS.or (JS.field "thumbnail" item) (JS.field "preview" item))
                 (JS.and (JS.field "images" item)
                         (JS.field "thumbnail" (JS.field "images" item)));
         SearchResult.preview :=
           JS.or (JS.or (JS.field "preview" item)
                        (JS.opt_chain "url"
                           (JS.opt_chain "json" (JS.field "files" item))))
                 VNull;
         SearchResult.license :=
           JS.or (JS.or (JS.and (JS.field "license" item)
                                (JS.field "name" (JS.field "license" item)))
                        (JS.field "license" item))
                 (VStr "unknown");
         SearchResult.tags :=
           JS.or (JS.or (JS.field "tags" item)
                        (JS.and (JS.field "meta" item)
                                (JS.field "tags" (JS.field "meta" item))))
                 (VArr []);
         SearchResult.score := 1;
         SearchResult.meta :=
           {| SearchResult.duration_ms :=
                JS.or (JS.or (JS.field "duration_ms" item)
                             (JS.field "duration" item)) VNull;
              SearchResult.frames := JS.or (JS.field "frames" item) VNull |} |}.
Proof.
  unfold normalize_item. intros Hrun.
  destruct (JS.is_nullish item) eqn:Hn.
  { destruct (get_nullish "id" item Hn) as [e He]. rewrite He in Hrun.
    discriminate. }
  rewrite (get_not_nullish _ _ Hn) in Hrun. fold (item_id item) in Hrun.
  unfold JS.ToString in Hrun.
  destruct (JS.convertible (item_id item)); [| discriminate].
  injection Hrun as <-. repeat split.
Qed.

Lemma normalize_item_null : exists e, normalize_item VNull = Throw e.
Proof. eexists; reflexivity. Qed.

(** The defaults that the callback does supply. *)
Lemma normalize_item_defaults item r :
  normalize_item item = Ok r ->
  (JS.field "title" item = VUndef -> JS.field "name" item = VUndef ->
   SearchResult.title r = VStr "Lottie") /\
  (JS.field "license" item = VUndef ->
   SearchResult.license r = VStr "unknown") /\
  (JS.field "tags" item = VUndef -> JS.field "meta" item = VUndef ->
   SearchResult.tags r = VArr []) /\
  (JS.field "preview" item = VUndef -> JS.field "files" item = VUndef ->
   SearchResult.preview r = VNull) /\
  (JS.field "duration_ms" item = VUndef -> JS.field "duration" item = VUndef ->
   SearchResult.duration_ms (SearchResult.meta r) = VNull) /\
  (JS.field "frames" item = VUndef ->
   SearchResult.frames (SearchResult.meta r) = VNull).
Proof.
  intros Hrun. apply normalize_item_ok in Hrun as (_ & _ & ->).
  cbn [SearchResult.title SearchResult.license
    SearchResult.tags SearchResult.preview SearchResult.meta
    SearchResult.duration_ms SearchResult.frames].
  repeat split; intros; repeat match goal with E : JS.field _ item = VUndef |- _ =>
    rewrite E; clear E end; reflexivity.
Qed.

(** No default is supplied for the thumbnail: without [thumbnail],
    [preview] and [images] it is [undefined]. *)
Lemma normalize_item_thumbnail_missing item r :
  normalize_item item = Ok r ->
  JS.field "thumbnail" item = VUndef -> JS.field "preview" item = VUndef ->
  JS.field "images" item = VUndef ->
  SearchResult.thumbnail r = VUndef.
Proof.
  intros Hrun Ht Hp Hi. apply normalize_item_ok in Hrun as (_ & _ & ->).
  cbn [SearchResult.thumbnail]. rewrite Ht, Hp, Hi. reflexivity.
Qed.

(** C4. The empty raw item normalizes without throwing, with the title,
    license and tags defaults and [null] for preview, duration and frames,
    but its thumbnail is [undefined], not [null]. *)
Theorem normalize_empty_item :
  normalize_item (VObj []) =
  Ok {| SearchResult.provider := "lottiefiles";
        SearchResult.providerId := "undefined";
        SearchResult.title := VStr "Lottie";
        SearchResult.type := "lottie";
        SearchResult.thumbnail := VUndef;
        SearchResult.preview := VNull;
        SearchResult.license := VStr "unknown";
        SearchResult.tags := VArr [];
        SearchResult.score := 1;
        SearchResult.meta := {| SearchResult.duration_ms := VNull;
                                SearchResult.frames := VNull |} |}.
Proof. reflexivity. Qed.

(** C9. A raw item with none of [id], [_id], [uid], [uuid] is normalized
    without failure, and its [providerId] is the string ["undefined"]. *)
Theorem normalize_item_without_id item :
  JS.is_nullish item = false ->
  JS.field "id" item = VUndef -> JS.field "_id" item = VUndef ->
  JS.field "uid" item = VUndef -> JS.field "uuid" item = VUndef ->
  exists r, normalize_item item = Ok r /\
            SearchResult.providerId r = "undefined".
Proof.
  intros Hn Hid H_id Huid Huuid. unfold normalize_item.
  rewrite (get_not_nullish _ _ Hn), Hid, H_id, Huid, Huuid.
  eexists; split; reflexivity.
Qed.

Lemma normalize_item_without_id_witness :
  exists r, normalize_item (VObj [("title", VStr "Fire")]) = Ok r /\
            SearchResult.providerId r = "undefined".
Proof.
  apply (normalize_item_without_id (VObj [("title", VStr "Fire")]));
    reflexivity.
Defined.

Lemma map_items_length l rs :
  map_items l = Ok rs -> length rs = length l.
Proof.
  revert rs. induction l as [| item l IH]; intros rs; simpl.
  - intros [= <-]. reflexivity.
  - destruct (normalize_item item); [| discriminate].
    destruct (map_items l) as [rs' |]; [| discriminate].
    intros [= <-]. simpl. f_equal. apply IH. reflexivity.
Qed.

(** A provider total of zero is replaced by the count of results. *)
Lemma total_zero_not_kept :
  let json := VObj [("data", VArr [VObj []; VObj []]); ("total", VNum 0)] in
  exists r, normalize_response json "fire" 1 24 = Ok r /\
            JS.field "total" json = VNum 0 /\
            SearchResponse.total r = VNum 2 /\
            SearchResponse.total r <> JS.field "total" json.
Proof. eexists. repeat split. discriminate. Qed.

(** C8, amended. The response's total is the provider's [total] when
    that is truthy, and the number of results otherwise (no [total], or a
    falsy one such as 0 or [null]); the results are as many as the items
    of [data]. *)
Theorem total_fallback json query page per_page r :
  normalize_response json query page per_page = Ok r ->
  (JS.truthy (JS.field "total" json) = true ->
   SearchResponse.total r = JS.field "total" json) /\
  (JS.truthy (JS.field "total" json) = false ->
   SearchResponse.total r
   = VNum (Z.of_nat (length (SearchResponse.results r)))) /\
  (forall items, JS.field "data" json = VArr items ->
   length (SearchResponse.results r) = length items).
Proof.
  unfold normalize_response.
  destruct (JS.get "data" json) as [data |] eqn:Hdata; [| discriminate].
  destruct (normalize_items data) as [items |] eqn:Hitems; [| discriminate].
  intros [= <-]. cbn [SearchResponse.total SearchResponse.results].
  unfold JS.or. repeat split.
  - intros ->. reflexivity.
  - intros ->. reflexivity.
  - intros raw Hraw.
    assert (data = VArr raw) as ->.
    { unfold JS.get in Hdata. unfold JS.field in Hraw.
      destruct (JS.get_opt "data" json); [| discriminate].
      simpl in Hraw. congruence. }
    apply map_items_length. exact Hitems.
Qed.

(** Two items and no [total]: the total is 2. *)
Lemma total_fallback_witness :
  let json := VObj [("data", VArr [VObj [("id", VNum 7)]; VObj []])] in
  exists r, normalize_response json "fire" 1 24 = Ok r /\
            SearchResponse.total r = VNum 2 /\
            length (SearchResponse.results r) = 2%nat.
Proof.
  eexists. split; [reflexivity |].
  pose proof (total_fallback
    (VObj [("data", VArr [VObj [("id", VNum 7)]; VObj []])]) "fire" 1 24 _
    eq_refl) as (_ & Hfalsy & Hlen).
  split; [| exact (Hlen _ eq_refl)].
  rewrite (Hfalsy eq_refl). reflexivity.
Defined.

(** The scenario of the design document, through the whole function. *)
Example search_two_items_no_total :
  let env := Sample.env_local in
  let w := Sample.world (Sample.always 200 (Sample.stringify Sample.search_body)) in
  exists r, fst (searchLottieFiles (rt := Sample.runtime) env
                   (load (rt := Sample.runtime) env) "fire"
                   Sample.first_page w) = Ok r /\
            SearchResponse.total r = VNum 2 /\
            map SearchResult.providerId (SearchResponse.results r) = ["7"; "u-2"].
Proof. eexists. vm_compute. repeat split. Qed.

(** ** The asset locator *)

Lemma falsy_field k v : JS.truthy v = false -> JS.field k v = VUndef.
Proof. destruct v; simpl; intros Hf; try discriminate; reflexivity. Qed.

Lemma falsy_own_entries v : JS.truthy v = false -> JS.own_entries v = [].
Proof.
  destruct v as [| | b | n | s | l | props]; simpl; intros Hf;
    try discriminate; try reflexivity.
  destruct s; [reflexivity | discriminate].
Qed.

Lemma push_if_nil x : push_if x = [] <-> url_shaped x = false.
Proof.
  unfold push_if, url_shaped. destruct (JS.truthy x); split;
    intros Hx; try discriminate; reflexivity.
Qed.

Lemma push_if_truthy x : Forall (fun u => JS.truthy u = true) (push_if x).
Proof.
  unfold push_if. destruct (JS.truthy x) eqn:Hx; constructor; auto.
Qed.

Lemma entry_urls_nil entry :
  entry_urls entry = [] <->
  url_shaped (JS.field "url" entry) ||
  url_shaped (JS.field "download_url" entry) = false.
Proof.
  unfold entry_urls. destruct (JS.truthy entry) eqn:Ht; simpl.
  - rewrite orb_false_iff, <- !push_if_nil. split.
    + intros Happ. apply app_eq_nil in Happ. exact Happ.
    + intros [-> ->]. reflexivity.
  - rewrite !(falsy_field _ _ Ht). split; reflexivity.
Qed.

Lemma entry_urls_truthy entry :
  Forall (fun u => JS.truthy u = true) (entry_urls entry).
Proof.
  unfold entry_urls. destruct (negb (JS.truthy entry)); [constructor |].
  apply Forall_app; split; apply push_if_truthy.
Qed.

Lemma entries_urls_nil (entries : list (string * value)) :
  flat_map (fun kv => entry_urls (snd kv)) entries = [] <->
  existsb (fun kv => url_shaped (JS.field "url" (snd kv)) ||
                     url_shaped (JS.field "download_url" (snd kv)))
          entries = false.
Proof.
  induction entries as [| kv entries IH]; simpl; [split; reflexivity |].
  rewrite orb_false_iff, <- IH, <- entry_urls_nil. split.
  - intros Happ. apply app_eq_nil in Happ. exact Happ.
  - intros [-> ->]. reflexivity.
Qed.

(** The pushes find something exactly when there is a URL-shaped field. *)
Lemma candidateUrls_nil detail :
  candidateUrls detail = [] <-> has_url_field detail = false.
Proof.
  unfold candidateUrls, has_url_field.
  rewrite !orb_false_iff, <- !push_if_nil, <- entries_urls_nil.
  destruct (JS.truthy (JS.field "files" detail)) eqn:Hfiles.
  - split.
    + intros Happ. apply app_eq_nil in Happ as [-> Happ].
      apply app_eq_nil in Happ as [-> Happ].
      apply app_eq_nil in Happ as [-> ->]. auto.
    + intros [[[-> ->] ->] ->]. reflexivity.
  - rewrite (falsy_own_entries _ Hfiles). simpl. split.
    + intros Happ. apply app_eq_nil in Happ as [-> Happ].
      apply app_eq_nil in Happ as [-> ->]. auto.
    + intros [[[_ ->] ->] ->]. reflexivity.
Qed.

(** Only truthy values are pushed. *)
Lemma candidateUrls_truthy detail :
  Forall (fun u => JS.truthy u = true) (candidateUrls detail).
Proof.
  unfold candidateUrls. repeat (apply Forall_app; split);
    try apply push_if_truthy.
  destruct (JS.truthy (JS.field "files" detail)); [| constructor].
  induction (JS.own_entries (JS.field "files" detail)) as [| kv l IH];
    simpl; [constructor |].
  apply Forall_app; split; [apply entry_urls_truthy | exact IH].
Qed.

(** De-duplication keeps the first candidate first. *)
Lemma set_dedup_cons v l :
  JS.set_dedup (v :: l) = v :: JS.set_dedup_acc [v] l.
Proof. reflexivity. Qed.

(** C5. For a detail object (anything but [null] and [undefined]),
    location fails with [NoDownloadableAsset] exactly when there is no
    URL-shaped field: no entry of [files] with a [url] or [download_url],
    and no [animation_url], [download_url] or [preview] on the object.
    With at least one such field it returns a non-empty list. *)
Theorem locate_fails_iff_no_url_field detail :
  JS.is_nullish detail = false ->
  (locate detail = Throw NoDownloadableAsset <-> has_url_field detail = false)
  /\ (has_url_field detail = true ->
      exists u rest, locate detail = Ok (u :: rest)).
Proof.
  intros Hn. unfold locate. rewrite (get_not_nullish _ _ Hn).
  pose proof (candidateUrls_nil detail) as Hnil.
  pose proof (candidateUrls_truthy detail) as Htruthy.
  destruct (candidateUrls detail) as [| v l].
  - simpl. split.
    + split; [intros _; apply Hnil; reflexivity | reflexivity].
    + intros Hhas. rewrite (proj1 Hnil eq_refl) in Hhas. discriminate.
  - rewrite set_dedup_cons. cbn [List.filter].
    inversion Htruthy as [| ? ? Hv _]; subst. rewrite Hv.
    destruct (has_url_field detail) eqn:Hhas.
    + split; [split; discriminate | intros _; eauto].
    + destruct Hnil as [_ Hnil]. discriminate (Hnil eq_refl).
Qed.

Lemma locate_fails_iff_no_url_field_witness :
  let detail := VObj [("title", VStr "Fire"); ("preview", VStr "https://x/p.gif")] in
  (locate detail = Throw NoDownloadableAsset <-> has_url_field detail = false)
  /\ (has_url_field detail = true ->
      exists u rest, locate detail = Ok (u :: rest)).
Proof.
  apply (locate_fails_iff_no_url_field
           (VObj [("title", VStr "Fire"); ("preview", VStr "https://x/p.gif")])).
  reflexivity.
Defined.

(** Only a top-level preview: that URL is the one candidate. *)
Lemma locate_preview_only detail u :
  JS.is_nullish detail = false ->
  JS.field "files" detail = VUndef ->
  JS.field "animation_url" detail = VUndef ->
  JS.field "download_url" detail = VUndef ->
  JS.field "preview" detail = VStr u -> u <> "" ->
  locate detail = Ok [VStr u].
Proof.
  intros Hn Hf Ha Hd Hp Hu.
  assert (Ht : negb (String.eqb u "") = true).
  { destruct (String.eqb_spec u ""); [contradiction | reflexivity]. }
  unfold locate, candidateUrls.
  rewrite (get_not_nullish _ _ Hn), Hf, Ha, Hd, Hp.
  unfold push_if. simpl. rewrite Ht. simpl. rewrite Ht. reflexivity.
Qed.

(** Nothing URL-shaped, and an empty string where a URL would be. *)
Example locate_nothing :
  locate (VObj [("title", VStr "Fire")]) = Throw NoDownloadableAsset /\
  locate (VObj [("files", VObj [("json", VObj [("url", VStr "")])]);
                ("preview", VNull)]) = Throw NoDownloadableAsset.
Proof. split; reflexivity. Qed.

(** Candidates in discovery order, duplicates dropped. *)
Example locate_order :
  locate (VObj [("files", VObj [("gif", VObj [("url", VStr "https://x/a.gif")]);
                                ("json", VObj [("url", VStr "https://x/a.json");
                                               ("download_url", VStr "https://x/a.gif")])]);
                ("preview", VStr "https://x/a.json")])
  = Ok [VStr "https://x/a.gif"; VStr "https://x/a.json"].
Proof. reflexivity. Qed.

(** A [null] detail document is a TypeError, not the locator's error. *)
Example locate_null : exists e, locate VNull = Throw e /\ exn_name e = "TypeError".
Proof. eexists; split; reflexivity. Qed.

(** ** The content hash *)

Lemma hex_digit_lower d :
  0 <= d < 16 -> Hex.is_lower_hex (Hex.digit false d) = true.
Proof.
  intros Hd.
  assert (Hcases : d = 0 \/ d = 1 \/ d = 2 \/ d = 3 \/ d = 4 \/ d = 5 \/
                   d = 6 \/ d = 7 \/ d = 8 \/ d = 9 \/ d = 10 \/ d = 11 \/
                   d = 12 \/ d = 13 \/ d = 14 \/ d = 15) by lia.
  repeat (destruct Hcases as [-> | Hcases]; [reflexivity |]).
  subst d. reflexivity.
Qed.

Lemma contentHash_chars gz :
  exists c1 c2 c3 c4 c5 c6 c7 c8 c9 c10 c11 c12,
    contentHash gz =
      string_of_list_ascii [c1; c2; c3; c4; c5; c6; c7; c8; c9; c10; c11; c12]
    /\ Forall (fun c => Hex.is_lower_hex c = true)
              [c1; c2; c3; c4; c5; c6; c7; c8; c9; c10; c11; c12].
Proof.
  unfold contentHash, SHA1.hex.
  destruct (SHA1.digest gz) as [[[[h0 h1] h2] h3] h4].
  unfold SHA1.hex_word. cbn [map app string_of_list_ascii substring].
  do 12 eexists. split; [reflexivity |].
  repeat constructor; apply hex_digit_lower, Z.mod_pos_bound; lia.
Qed.

(** The content hash is twelve lower-case hexadecimal characters. *)
Lemma contentHash_hex12 gz :
  String.length (contentHash gz) = 12%nat /\
  Forall (fun c => Hex.is_lower_hex c = true)
         (list_ascii_of_string (contentHash gz)).
Proof.
  destruct (contentHash_chars gz)
    as (c1 & c2 & c3 & c4 & c5 & c6 & c7 & c8 & c9 & c10 & c11 & c12 & -> & Hhex).
  split; [reflexivity | exact Hhex].
Qed.

(** ** Storage and the manifest *)

Lemma await_ok {S A B} (c : Async S A) (k : A -> Async S B) s b s' :
  await c k s = (Ok b, s') ->
  exists a s1, c s = (Ok a, s1) /\ k a s1 = (Ok b, s').
Proof.
  unfold await. destruct (c s) as [[a | e] s1]; [eauto | discriminate].
Qed.

Section ImportFacts.
Context {rt : Runtime} (env : Env) (m : Module_).

(** What a successful upload step leaves: the disk and the clock
    untouched, and either one more object sent to the store (when the
    client exists and the bucket is configured) or nothing sent. *)
Lemma upload_ok options name localPath gz w url w' :
  upload env m options name localPath gz w = (Ok url, w') ->
  files w' = files w /\ now w' = now w /\
  ((exists client, s3 m = Some client) /\ is_set (S3_BUCKET env) = true /\
   (exists cmd, sent w' = (sent w ++ [cmd])%list /\
                Key cmd = "lottie/" ++ name /\ Body cmd = Some gz /\
                ContentType cmd = Some "application/json" /\
                ContentEncoding cmd = Some "gzip")
   \/
   (s3 m = None \/ is_set (S3_BUCKET env) = false) /\
   sent w' = sent w /\ url = "file://" ++ localPath).
Proof.
  unfold upload. destruct (s3 m) as [client |] eqn:Hs3.
  - destruct (is_set (S3_BUCKET env)) eqn:Hbucket.
    + intros Hrun.
      apply await_ok in Hrun as ([] & w1 & Hsend & Hrun).
      apply await_ok in Hrun as ([] & w2 & Hsign & Hrun).
      unfold resolve in Hrun. injection Hrun as <- <-.
      unfold s3_send in Hsend.
      destruct (send_fault w _); [discriminate |].
      injection Hsend as <-.
      unfold getSignedUrl in Hsign.
      destruct (presign_fault _ _); [discriminate |].
      injection Hsign as <-.
      split; [reflexivity | split; [reflexivity | left]].
      split; [eauto | split; [reflexivity |]].
      eexists. simpl. repeat split.
    + unfold resolve. intros [= <- <-].
      split; [reflexivity | split; [reflexivity | right; auto]].
  - unfold resolve. intros [= <- <-].
    split; [reflexivity | split; [reflexivity | right; auto]].
Qed.

(** A successful run of steps 5 to 7. *)
Lemma store_and_build_ok providerId options detail minified w mf w' :
  store_and_build env m providerId options detail minified w = (Ok mf, w') ->
  let gz := compress minified in
  let hash := contentHash gz in
  let name := outName providerId hash in
  let localPath := path_join (DEFAULT_CACHE_DIR m) name in
  exists remoteUrl,
    mf = build_manifest providerId options detail hash name remoteUrl
                        localPath gz (now w) /\
    files w' = <[localPath := gz]> (files w) /\
    ((exists client, s3 m = Some client) ->
     is_set (S3_BUCKET env) = true ->
     exists cmd, sent w' = (sent w ++ [cmd])%list /\
                 Key cmd = "lottie/" ++ name /\ Body cmd = Some gz).
Proof.
  intros Hrun gz hash name localPath. unfold store_and_build in Hrun.
  fold gz hash name localPath in Hrun.
  apply await_ok in Hrun as ([] & w1 & Hmkdir & Hrun).
  apply await_ok in Hrun as ([] & w2 & Hwrite & Hrun).
  apply await_ok in Hrun as (remoteUrl & w3 & Hupload & Hrun).
  apply await_ok in Hrun as (importedAt & w4 & Hdate & Hrun).
  unfold resolve in Hrun. injection Hrun as <- <-.
  unfold date_now in Hdate. injection Hdate as <- <-.
  unfold ensureCacheDir, fs_mkdir in Hmkdir.
  destruct (mkdir_fault w _); [discriminate |]. injection Hmkdir as <-.
  unfold fs_writeFile in Hwrite.
  destruct (write_fault _ _); [discriminate |]. injection Hwrite as <-.
  apply upload_ok in Hupload as (Hfiles & Hnow & Hsent).
  exists remoteUrl. rewrite Hfiles, Hnow. simpl. repeat split.
  intros Hclient Hbucket.
  destruct Hsent as [(_ & _ & cmd & Hcmd & Hkey & Hbody & _)
                    | ([Hnone | Hunset] & _)].
  - exists cmd. simpl in Hcmd. auto.
  - destruct Hclient as [client Hclient]. congruence.
  - congruence.
Qed.

(** A successful import is a successful acquisition followed by a
    successful run of steps 5 to 7. *)
Lemma import_ok providerId options w mf w' :
  importLottieAnimation env m providerId options w = (Ok mf, w') ->
  exists detail minified w1,
    acquire env m providerId w = (Ok (detail, minified), w1) /\
    store_and_build env m providerId options detail minified w1
      = (Ok mf, w').
Proof.
  unfold importLottieAnimation.
  destruct (negb (is_set (LOTTIE_API_KEY env))); [discriminate |].
  intros Hrun. apply await_ok in Hrun as ([detail minified] & w1 & Hacq & Hrun).
  eauto.
Qed.

End ImportFacts.

Section ImportClaims.
Context {rt : Runtime}.

(** C6. After a successful import the local cache file
    [lottie_{providerId}_{contentHash}.json.gz], the one the manifest
    names, holds the compressed payload (the gzip of the minified text
    that steps 1 to 4 produced), whatever the storage configuration; when
    the object store is configured, the same bytes have also been sent to
    it. *)
Theorem local_copy_always_written env m providerId options w mf w' :
  importLottieAnimation env m providerId options w = (Ok mf, w') ->
  exists detail minified w1,
    acquire env m providerId w = (Ok (detail, minified), w1) /\
    let gz := compress minified in
    let name :=
      "lottie_" ++ providerId ++ "_" ++ contentHash gz ++ ".json.gz" in
    let localPath := path_join (DEFAULT_CACHE_DIR m) name in
    files w' !! localPath = Some gz /\
    map Asset.localPath (Manifest.requiredAssets mf) = [localPath] /\
    ((exists client, s3 m = Some client) ->
     is_set (S3_BUCKET env) = true ->
     exists earlier cmd,
       sent w' = (earlier ++ [cmd])%list /\
       Key cmd = "lottie/" ++ name /\ Body cmd = Some gz).
Proof.
  intros Hrun.
  apply import_ok in Hrun as (detail & minified & w1 & Hacq & Hstore).
  apply store_and_build_ok in Hstore as (remoteUrl & -> & Hfiles & Hsent).
  exists detail, minified, w1. split; [exact Hacq |]. cbv zeta.
  split; [| split].
  - rewrite Hfiles. apply lookup_insert_eq.
  - reflexivity.
  - intros Hclient Hbucket.
    destruct (Hsent Hclient Hbucket) as (cmd & Hcmd & Hkey & Hbody).
    exists (sent w1), cmd. auto.
Qed.


(** C7. The sequence template is present exactly when the caller sets
    [generateTemplate]; it is then the default three-phase template
    (charge at 0, projectile at 600, impact on [onImpact]) named after
    the manifest's identifier [lottie_import_{providerId}_{contentHash}];
    otherwise it is [null]. *)
Theorem sequence_template_opt_in env m providerId options w mf w' :
  importLottieAnimation env m providerId options w = (Ok mf, w') ->
  (exists a, Manifest.requiredAssets mf = [a] /\
             Manifest.id mf =
               "lottie_import_" ++ providerId ++ "_" ++ Asset.etag a) /\
  (generateTemplate options = true ->
   exists t,
     Manifest.sequenceTemplate mf = Some t /\
     Template.name t = Manifest.id mf /\
     map (fun p => (Phase.time p, Phase.effect p)) (Template.phases t)
     = [(Phase.At 0, "lottie_charge"); (Phase.At 600, "lottie_projectile");
        (Phase.On "onImpact", "lottie_impact")]) /\
  (generateTemplate options = false -> Manifest.sequenceTemplate mf = None).
Proof.
  intros Hrun.
  apply import_ok in Hrun as (detail & minified & w1 & _ & Hstore).
  apply store_and_build_ok in Hstore as (remoteUrl & -> & _ & _).
  cbn [build_manifest Manifest.requiredAssets Manifest.id
       Manifest.sequenceTemplate].
  split; [eexists; split; reflexivity |].
  split; intros ->; [| reflexivity].
  eexists. split; [reflexivity |]. split; reflexivity.
Qed.

(** C2, amended. Two imports of the same [providerId] whose minified
    payloads are the same bytes name their stored file identically,
    whatever the worlds, options and configurations they run in. *)
Theorem same_payload_same_filename
    env1 m1 env2 m2 providerId options1 options2
    w1 w2 detail1 detail2 minified wa1 wa2 mf1 mf2 w1' w2' :
  acquire env1 m1 providerId w1 = (Ok (detail1, minified), wa1) ->
  acquire env2 m2 providerId w2 = (Ok (detail2, minified), wa2) ->
  importLottieAnimation env1 m1 providerId options1 w1 = (Ok mf1, w1') ->
  importLottieAnimation env2 m2 providerId options2 w2 = (Ok mf2, w2') ->
  map Asset.name (Manifest.requiredAssets mf1)
    = [outName providerId (contentHash (compress minified))] /\
  map Asset.name (Manifest.requiredAssets mf2)
    = map Asset.name (Manifest.requiredAssets mf1).
Proof.
  intros Hacq1 Hacq2 Hrun1 Hrun2.
  apply import_ok in Hrun1 as (d1 & min1 & wb1 & Hacq1' & Hstore1).
  apply import_ok in Hrun2 as (d2 & min2 & wb2 & Hacq2' & Hstore2).
  rewrite Hacq1 in Hacq1'. injection Hacq1' as <- <- <-.
  rewrite Hacq2 in Hacq2'. injection Hacq2' as <- <- <-.
  apply store_and_build_ok in Hstore1 as (url1 & -> & _ & _).
  apply store_and_build_ok in Hstore2 as (url2 & -> & _ & _).
  split; reflexivity.
Qed.

End ImportClaims.

Lemma length_append (a b : string) :
  String.length (a ++ b) = (String.length a + String.length b)%nat.
Proof. induction a as [| c a IH]; simpl; [reflexivity | rewrite IH; reflexivity]. Qed.

Lemma append_inv_tail (a b c : string) : a ++ c = b ++ c -> a = b.
Proof.
  revert b. induction a as [| x a IH]; intros [| y b] Heq;
    try reflexivity.
  - apply (f_equal String.length) in Heq.
    rewrite !length_append in Heq. simpl in Heq. lia.
  - apply (f_equal String.length) in Heq.
    rewrite !length_append in Heq. simpl in Heq. lia.
  - change (String x (a ++ c) = String y (b ++ c)) in Heq.
    injection Heq as -> Heq. f_equal. apply IH. exact Heq.
Qed.

(** The file name embeds [providerId] as given: two names with the same
    hash agree only for the same [providerId], written the same way. *)
Lemma outName_providerId p1 p2 hash :
  outName p1 hash = outName p2 hash -> p1 = p2.
Proof.
  unfold outName. intros Heq.
  change (String.append "lottie_") with
    (fun s => String "l" (String "o" (String "t" (String "t" (String "i"
              (String "e" (String "_" s))))))) in Heq.
  cbv beta in Heq. injection Heq as Heq.
  apply append_inv_tail in Heq. exact Heq.
Qed.

(** Two imports of the same animation, served once compact and once with
    white space, under provider identifiers that differ in case only: the
    stored bytes and the content hash are the same, the file names are
    not. *)
Lemma same_payload_other_case_other_filename :
  let env := Sample.env_local in
  let run providerId payload :=
    importLottieAnimation (rt := Sample.runtime) env
      (load (rt := Sample.runtime) env) providerId Sample.plain
      (Sample.world (Sample.provider payload)) in
  let r1 := run "abc123" (Sample.stringify Sample.animation) in
  let r2 := run "ABC123" Sample.animation_spaced in
  exists mf1 mf2,
    fst r1 = Ok mf1 /\ fst r2 = Ok mf2 /\
    map snd (map_to_list (files (snd r1)))
      = map snd (map_to_list (files (snd r2))) /\
    map Asset.etag (Manifest.requiredAssets mf1)
      = map Asset.etag (Manifest.requiredAssets mf2) /\
    map Asset.name (Manifest.requiredAssets mf1)
      = ["lottie_abc123_e2c5a5545211.json.gz"] /\
    map Asset.name (Manifest.requiredAssets mf2)
      = ["lottie_ABC123_e2c5a5545211.json.gz"] /\
    map Asset.name (Manifest.requiredAssets mf1)
      <> map Asset.name (Manifest.requiredAssets mf2).
Proof.
  do 2 eexists. vm_compute. repeat split. discriminate.
Qed.

Lemma same_payload_same_filename_witness :
  let env1 := Sample.env_local in
  let env2 := Sample.env_s3 in
  let w1 := Sample.world (Sample.provider (Sample.stringify Sample.animation)) in
  let w2 := Sample.world (Sample.provider Sample.animation_spaced) in
  exists mf1 mf2 w1' w2',
    importLottieAnimation (rt := Sample.runtime) env1
      (load (rt := Sample.runtime) env1) "abc123" Sample.plain w1
      = (Ok mf1, w1') /\
    importLottieAnimation (rt := Sample.runtime) env2
      (load (rt := Sample.runtime) env2) "abc123" Sample.with_template w2
      = (Ok mf2, w2') /\
    map Asset.name (Manifest.requiredAssets mf2)
      = map Asset.name (Manifest.requiredAssets mf1).
Proof.
  intros env1 env2 w1 w2.
  destruct (importLottieAnimation (rt := Sample.runtime) env1
              (load (rt := Sample.runtime) env1) "abc123" Sample.plain w1)
    as [[mf1 | e1] w1'] eqn:Hrun1; [| vm_compute in Hrun1; discriminate].
  destruct (importLottieAnimation (rt := Sample.runtime) env2
              (load (rt := Sample.runtime) env2) "abc123"
              Sample.with_template w2)
    as [[mf2 | e2] w2'] eqn:Hrun2; [| vm_compute in Hrun2; discriminate].
  exists mf1, mf2, w1', w2'. split; [reflexivity | split; [reflexivity |]].
  destruct (acquire (rt := Sample.runtime) env1
              (load (rt := Sample.runtime) env1) "abc123" w1)
    as [[[d1 min1] | a1] wa1] eqn:Hacq1; [| vm_compute in Hacq1; discriminate].
  destruct (acquire (rt := Sample.runtime) env2
              (load (rt := Sample.runtime) env2) "abc123" w2)
    as [[[d2 min2] | a2] wa2] eqn:Hacq2; [| vm_compute in Hacq2; discriminate].
  assert (Hmin : min2 = min1).
  { vm_compute in Hacq1, Hacq2. congruence. }
  subst min2.
  exact (proj2 (same_payload_same_filename _ _ _ _ _ _ _ _ _ _ _ _ _ _ _ _ _ _
                  Hacq1 Hacq2 Hrun1 Hrun2)).
Defined.

(** Without the API key nothing is requested. *)
Example import_without_key (rt : Runtime) :
  let env := {| LOTTIE_API_KEY := None; LOTTIE_API_BASE := None;
                S3_BUCKET := None; AWS_REGION := None |} in
  let r := importLottieAnimation env (load env) "abc123" Sample.plain
             (Sample.world (Sample.always 200 "{}")) in
  fst r = Throw (Error "LOTTIE_API_KEY not configured in env") /\
  requests (snd r) = [].
Proof. split; reflexivity. Qed.

(** From here on the adapter runs on the sample runtime. *)
#[local] Existing Instance Sample.runtime.

(** An import with the object store configured: the upload succeeds and
    the local cache file is written all the same, with the gzip of the
    minified animation. *)
Lemma local_copy_always_written_witness :
  let env := Sample.env_s3 in
  let m := load (rt := Sample.runtime) env in
  let w := Sample.world (Sample.provider Sample.animation_spaced) in
  exists mf w' detail minified w1,
    importLottieAnimation (rt := Sample.runtime) env m "abc123" Sample.plain w
      = (Ok mf, w') /\
    acquire (rt := Sample.runtime) env m "abc123" w
      = (Ok (detail, minified), w1) /\
    minified = Sample.stringify Sample.animation /\
    let gz := compress minified in
    let name := "lottie_" ++ "abc123" ++ "_" ++ contentHash gz ++ ".json.gz" in
    let localPath := path_join (DEFAULT_CACHE_DIR m) name in
    files w' !! localPath = Some gz /\
    map Asset.localPath (Manifest.requiredAssets mf) = [localPath] /\
    ((exists client, s3 m = Some client) ->
     is_set (S3_BUCKET env) = true ->
     exists earlier cmd,
       sent w' = (earlier ++ [cmd])%list /\
       Key cmd = "lottie/" ++ name /\ Body cmd = Some gz).
Proof.
  intros env m w.
  destruct (importLottieAnimation (rt := Sample.runtime) env m "abc123"
              Sample.plain w) as [[mf | e] w'] eqn:Hrun;
    [| vm_compute in Hrun; discriminate].
  destruct (local_copy_always_written env m "abc123" Sample.plain w mf w' Hrun)
    as (detail & minified & w1 & Hacq & Hstored).
  exists mf, w', detail, minified, w1.
  split; [reflexivity |]. split; [exact Hacq |]. split; [| exact Hstored].
  vm_compute in Hacq. injection Hacq as _ <- _. vm_compute. reflexivity.
Defined.


Lemma sequence_template_opt_in_witness :
  let env := Sample.env_local in
  let m := load (rt := Sample.runtime) env in
  let w := Sample.world (Sample.provider (Sample.stringify Sample.animation)) in
  exists mf w',
    importLottieAnimation (rt := Sample.runtime) env m "abc123"
      Sample.with_template w = (Ok mf, w') /\
    exists t,
      Manifest.sequenceTemplate mf = Some t /\
      Template.name t = Manifest.id mf /\
      map (fun p => (Phase.time p, Phase.effect p)) (Template.phases t)
      = [(Phase.At 0, "lottie_charge"); (Phase.At 600, "lottie_projectile");
         (Phase.On "onImpact", "lottie_impact")].
Proof.
  intros env m w.
  destruct (importLottieAnimation (rt := Sample.runtime) env m "abc123"
              Sample.with_template w) as [[mf | e] w'] eqn:Hrun;
    [| vm_compute in Hrun; discriminate].
  destruct (sequence_template_opt_in env m "abc123" Sample.with_template w
              mf w' Hrun) as (_ & Hon & _).
  exists mf, w'. split; [reflexivity | exact (Hon eq_refl)].
Defined.

(** The import scenario of the design document, on the sample runtime. *)
Example import_abc123 :
  let env := Sample.env_local in
  let r := importLottieAnimation (rt := Sample.runtime) env
             (load (rt := Sample.runtime) env) "abc123" Sample.plain
             (Sample.world (Sample.provider (Sample.stringify Sample.animation))) in
  exists mf, fst r = Ok mf /\
    Manifest.id mf = "lottie_import_abc123_e2c5a5545211" /\
    Source.providerId (Manifest.source mf) = "abc123" /\
    map Asset.mime (Manifest.requiredAssets mf) = ["application/json"] /\
    map Asset.name (Manifest.requiredAssets mf)
      = ["lottie_abc123_e2c5a5545211.json.gz"] /\
    Manifest.sequenceTemplate mf = None /\
    map url (requests (snd r))
      = ["https://api.lottiefiles.com/v2/animations/abc123"; "https://x/a.json"].
Proof. eexists. vm_compute. repeat split. Qed.

(** * Further properties of the adapter *)

(** ** More on the retry executor *)

Section RetryMeasure.
Context {S A : Type} (sleep : Z -> S -> S) (fn : Async S A).
(** A quantity that every invocation of the operation increases by one
    and that waiting leaves alone. *)
Variable calls : S -> nat.
Hypothesis calls_fn : forall s, calls (snd (fn s)) = Datatypes.S (calls s).
Hypothesis calls_sleep : forall ms s, calls (sleep ms s) = calls s.

Lemma retry_from_calls times delayMs (n : nat) :
  forall attempt s,
    Z.to_nat (times - attempt) = n ->
    (calls s + 1 <= calls (snd (retry_from sleep fn times delayMs attempt s))
     <= calls s + Nat.max 1 n)%nat.
Proof.
  induction n as [| n IH]; intros attempt s Hn; rewrite retry_from_step;
    pose proof (calls_fn s) as Hs; destruct (fn s) as [[v | err] s1];
    cbn [snd] in *; try lia.
  - destruct (Z.geb_spec (attempt + 1) times); cbn [snd]; lia.
  - destruct (Z.geb_spec (attempt + 1) times); cbn [snd]; [lia |].
    specialize (IH (attempt + 1) (sleep (delayMs * (attempt + 1)) s1)
                   ltac:(lia)).
    rewrite calls_sleep in IH. lia.
Qed.

Lemma retry_calls times delayMs s :
  (calls s + 1 <= calls (snd (retry sleep fn times delayMs s))
   <= calls s + Nat.max 1 (Z.to_nat times))%nat.
Proof.
  unfold retry.
  pose proof (retry_from_calls times delayMs (Z.to_nat (times - 0)) 0 s
                eq_refl) as Hb.
  replace (times - 0) with times in Hb by lia. exact Hb.
Qed.

End RetryMeasure.

Section RetryMore.
Context {S A : Type} (sleep : Z -> S -> S).
Implicit Types (fn : Async S A) (s : S).

(** X1. Whatever the operation does, [retry] invokes it at least once and
    never more than [times] times (once when [times] is below one). *)
Theorem retry_invocations_bounded fn (times delayMs : Z) s :
  let count :=
    snd (snd (retry (counted_sleep sleep) (counted fn) times delayMs
                    (s, 0%nat))) in
  (1 <= count <= Nat.max 1 (Z.to_nat times))%nat.
Proof.
  pose proof (retry_calls (counted_sleep sleep) (counted fn) snd) as Hb.
  specialize (Hb ltac:(intros [s0 c]; rewrite counted_run; reflexivity)
                 ltac:(intros ms [s0 c]; reflexivity)
                 times delayMs (s, 0%nat)).
  cbn [snd] in Hb. cbv zeta. lia.
Qed.

(** The loop on an operation that fails up to invocation [k] and whose
    invocation [k] is allowed: it ends with what that invocation returns
    when it succeeds. *)
Lemma retry_from_reaches fn times delayMs s0 (k : nat) v s' :
  Z.of_nat k < times ->
  (forall j, (j < k)%nat ->
     exists e, fst (fn (state_before sleep fn delayMs j s0)) = Throw e) ->
  fn (state_before sleep fn delayMs k s0) = (Ok v, s') ->
  forall j a : nat,
    (a + j = k)%nat ->
    retry_from sleep fn times delayMs (Z.of_nat a)
      (state_before sleep fn delayMs a s0) = (Ok v, s').
Proof.
  intros Hk Hfail Hok j. induction j as [| j IH]; intros a Ha.
  - replace a with k by lia. rewrite retry_from_step, Hok. reflexivity.
  - rewrite retry_from_step.
    destruct (Hfail a ltac:(lia)) as [e He].
    specialize (IH (Datatypes.S a) ltac:(lia)).
    simpl state_before in IH.
    destruct (fn (state_before sleep fn delayMs a s0)) as [r s1].
    simpl in He, IH. subst r.
    destruct (Z.geb_spec (Z.of_nat a + 1) times); [lia |].
    rewrite <- IH. f_equal; [lia |]. f_equal. lia.
Qed.

End RetryMore.

Section RetrySuccess.
Context {S A : Type} (sleep : Z -> S -> S).
Implicit Types (fn : Async S A) (s : S).

(** X2. When the first [k] invocations fail and invocation number [k]
    (from 0, with [k] below [times]) succeeds, [retry] resolves to that
    result after exactly [k + 1] invocations, having waited
    [delayMs * j] after failure number [j]. *)
Theorem retry_succeeds_after_failures fn (times delayMs : Z) s (k : nat) v s' :
  Z.of_nat k < times ->
  (forall j, (j < k)%nat ->
     exists e, fst (fn (state_before sleep fn delayMs j s)) = Throw e) ->
  fn (state_before sleep fn delayMs k s) = (Ok v, s') ->
  retry sleep fn times delayMs s = (Ok v, s') /\
  retry (counted_sleep sleep) (counted fn) times delayMs (s, 0%nat)
    = (Ok v, (s', Datatypes.S k)).
Proof.
  intros Hk Hfail Hok. split.
  - unfold retry. change 0 with (Z.of_nat 0).
    change s with (state_before sleep fn delayMs 0 s) at 1.
    apply (retry_from_reaches sleep fn times delayMs s k v s' Hk Hfail Hok k 0%nat).
    lia.
  - unfold retry. change 0 with (Z.of_nat 0).
    change (s, 0%nat) with
      (state_before (counted_sleep sleep) (counted fn) delayMs 0 (s, 0%nat)).
    apply (retry_from_reaches (counted_sleep sleep) (counted fn) times delayMs
             (s, 0%nat) k v (s', Datatypes.S k) Hk) with (j := k); [| | lia].
    + intros j Hj. rewrite state_before_counted, counted_run. cbn [fst].
      exact (Hfail j Hj).
    + rewrite state_before_counted, counted_run, Hok. reflexivity.
Qed.

End RetrySuccess.

Lemma retry_succeeds_after_failures_witness :
  let sleep := fun (_ : Z) (n : nat) => n in
  retry sleep Fixtures.flaky 3 300 0%nat = (Ok (VNum 7), 3%nat) /\
  retry (counted_sleep sleep) (counted Fixtures.flaky) 3 300 (0%nat, 0%nat)
    = (Ok (VNum 7), (3%nat, 3%nat)).
Proof.
  apply (retry_succeeds_after_failures (fun (_ : Z) (n : nat) => n)
           Fixtures.flaky 3 300 0%nat 2 (VNum 7) 3%nat).
  - lia.
  - intros j Hj. assert (j = 0 \/ j = 1)%nat as [-> | ->] by lia;
      eexists; reflexivity.
  - reflexivity.
Defined.

(** ** Requests and waits of a run *)

Lemma advanced_nil w : advanced w [] [] = w.
Proof.
  destruct w. unfold advanced, with_timers, with_requests. simpl.
  rewrite !app_nil_r. reflexivity.
Qed.

Lemma setTimeout_advanced ms w reqs waits :
  setTimeout ms (advanced w reqs waits) = advanced w reqs (waits ++ [ms])%list.
Proof.
  unfold setTimeout, advanced, with_timers, with_requests. simpl.
  rewrite <- app_assoc. reflexivity.
Qed.

Lemma fetch_advanced u auth w reqs waits :
  fetch u auth (advanced w reqs waits) =
  let rq := {| url := u; Authorization := auth |} in
  match network w (length (requests w) + length reqs)%nat rq with
  | Resolves r => (Ok r, advanced w (reqs ++ [rq])%list waits)
  | Rejects e => (Throw e, advanced w (reqs ++ [rq])%list waits)
  end.
Proof.
  unfold fetch, advanced, with_timers, with_requests. simpl.
  rewrite length_app, <- app_assoc.
  destruct (network w _ _); reflexivity.
Qed.

Section ThreeAttempts.
Context {S A : Type} (sleep : Z -> S -> S) (fn : Async S A).

Lemma retry3_all_fail delayMs s e0 e1 e2 s1 s2 s3 :
  fn s = (Throw e0, s1) ->
  fn (sleep (delayMs * 1) s1) = (Throw e1, s2) ->
  fn (sleep (delayMs * 2) s2) = (Throw e2, s3) ->
  retry sleep fn 3 delayMs s = (Throw e2, s3).
Proof.
  intros H0 H1 H2. unfold retry.
  rewrite retry_from_step, H0. change (0 + 1) with 1.
  change (1 >=? 3) with false. cbv iota.
  rewrite retry_from_step, H1. change (1 + 1) with 2.
  change (2 >=? 3) with false. cbv iota.
  rewrite retry_from_step, H2. reflexivity.
Qed.

Lemma retry3_second_try delayMs s e0 v s1 s2 :
  fn s = (Throw e0, s1) ->
  fn (sleep (delayMs * 1) s1) = (Ok v, s2) ->
  retry sleep fn 3 delayMs s = (Ok v, s2).
Proof.
  intros H0 H1. unfold retry.
  rewrite retry_from_step, H0. change (0 + 1) with 1.
  change (1 >=? 3) with false. cbv iota.
  rewrite retry_from_step, H1. reflexivity.
Qed.

End ThreeAttempts.

(** A [fetch] rejected three times in a row: three requests, waits of
    [delayMs] and [2 * delayMs], and the third rejection comes out. *)
Lemma retry_fetch_rejected u auth delayMs w e0 e1 e2 :
  let rq := {| url := u; Authorization := auth |} in
  let n := length (requests w) in
  network w n rq = Rejects e0 ->
  network w (n + 1)%nat rq = Rejects e1 ->
  network w (n + 2)%nat rq = Rejects e2 ->
  retry setTimeout (fetch u auth) 3 delayMs w
  = (Throw e2, advanced w [rq; rq; rq] [delayMs * 1; delayMs * 2]).
Proof.
  intros rq n H0 H1 H2.
  rewrite <- (advanced_nil w) at 1.
  eapply retry3_all_fail.
  - rewrite fetch_advanced. cbv zeta. simpl length.
    rewrite Nat.add_0_r. fold n rq. rewrite H0. reflexivity.
  - rewrite setTimeout_advanced, fetch_advanced. cbv zeta. simpl length.
    fold n rq. rewrite H1. reflexivity.
  - rewrite setTimeout_advanced, fetch_advanced. cbv zeta. simpl length.
    fold n rq. rewrite H2. reflexivity.
Qed.

Section RequestFacts.
Context {rt : Runtime}.

(** X3. With the API key set and the provider unreachable (the three
    next requests are rejected), [searchLottieFiles] rejects with the
    third rejection itself, after exactly three identical requests to the
    search URL and waits of 300 and 600 ms; nothing else has changed. *)
Theorem search_transport_failures env m query opts w e0 e1 e2 :
  is_set (LOTTIE_API_KEY env) = true ->
  let rq := search_request m (or_else (LOTTIE_API_KEY env) "") query opts in
  let n := length (requests w) in
  network w n rq = Rejects e0 ->
  network w (n + 1)%nat rq = Rejects e1 ->
  network w (n + 2)%nat rq = Rejects e2 ->
  searchLottieFiles env m query opts w
  = (Throw e2, advanced w [rq; rq; rq] [300; 600]).
Proof.
  intros Hkey rq n H0 H1 H2. unfold searchLottieFiles. rewrite Hkey.
  cbn [negb]. unfold await.
  rewrite (retry_fetch_rejected _ _ 300 w e0 e1 e2 H0 H1 H2). reflexivity.
Qed.

(** X4. The same for an import whose detail request is rejected three
    times: it rejects with the third rejection after three requests to
    [/animations/{providerId}] and waits of 300 and 600 ms. *)
Theorem import_transport_failures env m providerId options w e0 e1 e2 :
  is_set (LOTTIE_API_KEY env) = true ->
  let rq := detail_request m (or_else (LOTTIE_API_KEY env) "") providerId in
  let n := length (requests w) in
  network w n rq = Rejects e0 ->
  network w (n + 1)%nat rq = Rejects e1 ->
  network w (n + 2)%nat rq = Rejects e2 ->
  importLottieAnimation env m providerId options w
  = (Throw e2, advanced w [rq; rq; rq] [300; 600]).
Proof.
  intros Hkey rq n H0 H1 H2. unfold importLottieAnimation. rewrite Hkey.
  cbn [negb]. unfold acquire, fetch_detail, await.
  rewrite (retry_fetch_rejected _ _ 300 w e0 e1 e2 H0 H1 H2). reflexivity.
Qed.

End RequestFacts.

Lemma search_transport_failures_witness :
  let env := Sample.env_local in
  let m := load (rt := Sample.runtime) env in
  let w := Sample.world Fixtures.unreachable in
  let rq := search_request m "k" "fire & ice" Fixtures.defaults in
  url rq = "https://api.lottiefiles.com/v2/animations?query=fire%20%26%20ice&page=1&per_page=24"
  /\ searchLottieFiles (rt := Sample.runtime) env m "fire & ice"
       Fixtures.defaults w
     = (Throw (Exn "FetchError" "ECONNRESET 2" None),
        advanced w [rq; rq; rq] [300; 600]).
Proof.
  split; [reflexivity |].
  eapply (search_transport_failures (rt := Sample.runtime) Sample.env_local
           (load (rt := Sample.runtime) Sample.env_local) "fire & ice"
           Fixtures.defaults (Sample.world Fixtures.unreachable));
    reflexivity.
Defined.

Lemma import_transport_failures_witness :
  let env := Sample.env_local in
  let m := load (rt := Sample.runtime) env in
  let w := Sample.world Fixtures.unreachable in
  let rq := detail_request m "k" "a/b" in
  url rq = "https://api.lottiefiles.com/v2/animations/a%2Fb"
  /\ importLottieAnimation (rt := Sample.runtime) env m "a/b" Sample.plain w
     = (Throw (Exn "FetchError" "ECONNRESET 2" None),
        advanced w [rq; rq; rq] [300; 600]).
Proof.
  split; [reflexivity |].
  eapply (import_transport_failures (rt := Sample.runtime) Sample.env_local
           (load (rt := Sample.runtime) Sample.env_local) "a/b"
           Sample.plain (Sample.world Fixtures.unreachable));
    reflexivity.
Defined.

Section KeyAndDownload.
Context {rt : Runtime}.

(** X5. Without an API key (unset or empty) neither function does
    anything: both reject with the configuration error and leave the world
    exactly as it was, with no request made. *)
Theorem missing_key_nothing_done env m query opts providerId options w :
  is_set (LOTTIE_API_KEY env) = false ->
  searchLottieFiles env m query opts w
    = (Throw (Error "LOTTIE_API_KEY not configured in env"), w) /\
  importLottieAnimation env m providerId options w
    = (Throw (Error "LOTTIE_API_KEY not configured in env"), w).
Proof.
  intros Hkey. unfold searchLottieFiles, importLottieAnimation.
  rewrite Hkey. split; reflexivity.
Qed.

(** One run of the retried download operation, in a world that has
    advanced. *)
Lemma download_attempt key jsonUrl w reqs waits :
  (let* r := fetch (JS.to_string jsonUrl) ("Bearer " ++ key) in
   if negb (Response.ok r)
   then reject (Error ("download failed " ++
                       JS.num_to_string (Response.status r)))
   else resolve (Response.buffer r)) (advanced w reqs waits)
  = let rq := asset_request key jsonUrl in
    let w' := advanced w (reqs ++ [rq])%list waits in
    match network w (length (requests w) + length reqs)%nat rq with
    | Resolves r =>
        if Response.ok r then (Ok (Response.buffer r), w')
        else (Throw (Error ("download failed " ++
                            JS.num_to_string (Response.status r))), w')
    | Rejects e => (Throw e, w')
    end.
Proof.
  unfold await. rewrite fetch_advanced. cbv zeta. unfold asset_request.
  destruct (network w _ _) as [r | e]; [| reflexivity].
  destruct (Response.ok r); reflexivity.
Qed.

(** X6. An asset URL that answers three times with a non-success status:
    the download is attempted exactly three times, with waits of 400 and
    800 ms, and fails with ["download failed <status>"] for the third
    status. *)
Theorem download_status_failures key jsonUrl w r0 r1 r2 :
  let rq := asset_request key jsonUrl in
  let n := length (requests w) in
  network w n rq = Resolves r0 -> Response.ok r0 = false ->
  network w (n + 1)%nat rq = Resolves r1 -> Response.ok r1 = false ->
  network w (n + 2)%nat rq = Resolves r2 -> Response.ok r2 = false ->
  download key jsonUrl w
  = (Throw (Error ("download failed " ++
                   JS.num_to_string (Response.status r2))),
     advanced w [rq; rq; rq] [400; 800]).
Proof.
  intros rq n H0 Hok0 H1 Hok1 H2 Hok2. unfold download.
  rewrite <- (advanced_nil w) at 1.
  eapply retry3_all_fail.
  - rewrite download_attempt. cbv zeta. simpl length.
    rewrite Nat.add_0_r. fold n rq. rewrite H0, Hok0. reflexivity.
  - rewrite setTimeout_advanced, download_attempt. cbv zeta. simpl length.
    fold n rq. rewrite H1, Hok1. reflexivity.
  - rewrite setTimeout_advanced, download_attempt. cbv zeta. simpl length.
    fold n rq. rewrite H2, Hok2. reflexivity.
Qed.

(** X7. A download that fails once (a non-success status) and then gets
    a success response resolves to the bytes of that second response,
    after two requests and one wait of 400 ms. *)
Theorem download_recovers key jsonUrl w r0 r1 :
  let rq := asset_request key jsonUrl in
  let n := length (requests w) in
  network w n rq = Resolves r0 -> Response.ok r0 = false ->
  network w (n + 1)%nat rq = Resolves r1 -> Response.ok r1 = true ->
  download key jsonUrl w
  = (Ok (Response.buffer r1), advanced w [rq; rq] [400]).
Proof.
  intros rq n H0 Hok0 H1 Hok1. unfold download.
  rewrite <- (advanced_nil w) at 1.
  eapply retry3_second_try.
  - rewrite download_attempt. cbv zeta. simpl length.
    rewrite Nat.add_0_r. fold n rq. rewrite H0, Hok0. reflexivity.
  - rewrite setTimeout_advanced, download_attempt. cbv zeta. simpl length.
    fold n rq. rewrite H1, Hok1. reflexivity.
Qed.

(** X8. A downloaded body that is not JSON is a final failure: the asset
    is requested once, without any wait, and the import rejects with
    ["Downloaded file is not valid JSON: "] followed by the parser's
    message. *)
Theorem invalid_payload_not_retried
    env m providerId options w detail w1 urls jsonUrl r err :
  let key := or_else (LOTTIE_API_KEY env) "" in
  let rq := asset_request key jsonUrl in
  is_set (LOTTIE_API_KEY env) = true ->
  fetch_detail m key providerId w = (Ok detail, w1) ->
  locate detail = Ok urls ->
  pick_json_url urls = Ok jsonUrl ->
  network w1 (length (requests w1)) rq = Resolves r ->
  Response.ok r = true ->
  JSON_parse (Response.text r) = Throw err ->
  importLottieAnimation env m providerId options w
  = (Throw (Error ("Downloaded file is not valid JSON: " ++ message err)),
     advanced w1 [rq] []).
Proof.
  intros key rq Hkey Hdetail Hlocate Hpick Hnet Hok Hparse.
  unfold importLottieAnimation. rewrite Hkey. cbn [negb].
  unfold acquire. fold key. unfold await at 1. unfold await at 1.
  rewrite Hdetail. unfold lift at 1, await at 1. rewrite Hlocate.
  unfold lift at 1, await at 1. rewrite Hpick.
  unfold await at 1.
  assert (Hdl : download key jsonUrl w1
                = (Ok (Response.buffer r), advanced w1 [rq] [])).
  { unfold download. apply retry_first_success.
    rewrite <- (advanced_nil w1) at 1. rewrite download_attempt.
    cbv zeta. simpl length. rewrite Nat.add_0_r. fold rq.
    rewrite Hnet, Hok. reflexivity. }
  rewrite Hdl. unfold await, lift, validate, Response.buffer.
  rewrite string_of_list_byte_of_string.
  unfold Response.text in Hparse. rewrite Hparse. reflexivity.
Qed.

End KeyAndDownload.

Lemma missing_key_nothing_done_witness :
  let env := Fixtures.no_key in
  let w := Sample.world (Sample.always 200 "{}") in
  searchLottieFiles (rt := Sample.runtime) env
    (load (rt := Sample.runtime) env) "fire" Fixtures.defaults w
    = (Throw (Error "LOTTIE_API_KEY not configured in env"), w) /\
  importLottieAnimation (rt := Sample.runtime) env
    (load (rt := Sample.runtime) env) "abc123" Sample.plain w
    = (Throw (Error "LOTTIE_API_KEY not configured in env"), w).
Proof.
  apply (missing_key_nothing_done (rt := Sample.runtime) Fixtures.no_key).
  reflexivity.
Defined.

Lemma download_status_failures_witness :
  let w := Sample.world (Sample.always 500 "oops") in
  let rq := asset_request "k" (VStr "https://x/a.json") in
  download "k" (VStr "https://x/a.json") w
  = (Throw (Error "download failed 500"), advanced w [rq; rq; rq] [400; 800]).
Proof.
  pose (r := {| Response.status := 500; Response.body := "oops" |}).
  apply (download_status_failures "k" (VStr "https://x/a.json")
           (Sample.world (Sample.always 500 "oops")) r r r); reflexivity.
Defined.

Lemma download_recovers_witness :
  let w := Sample.world Fixtures.second_try in
  let w1 := advanced w [detail_request (load (rt := Sample.runtime)
                                          Sample.env_local) "k" "abc123"] [] in
  let rq := asset_request "k" (VStr "https://x/a.json") in
  download "k" (VStr "https://x/a.json") w1
  = (Ok (list_byte_of_string (Sample.stringify Sample.animation)),
     advanced w1 [rq; rq] [400]).
Proof.
  apply (download_recovers "k" (VStr "https://x/a.json") _
           {| Response.status := 502; Response.body := "bad gateway" |}
           {| Response.status := 200;
              Response.body := Sample.stringify Sample.animation |});
    reflexivity.
Defined.

Lemma invalid_payload_not_retried_witness :
  let env := Sample.env_local in
  let m := load (rt := Sample.runtime) env in
  let w := Sample.world Fixtures.garbled in
  importLottieAnimation (rt := Sample.runtime) env m "abc123" Sample.plain w
  = (Throw (Error "Downloaded file is not valid JSON: Unexpected token"),
     advanced w [detail_request m "k" "abc123";
                 asset_request "k" (VStr "https://x/a.json")] []).
Proof.
  intros env m w.
  pose proof (invalid_payload_not_retried (rt := Sample.runtime) env m
                "abc123" Sample.plain w Sample.detail
                (advanced w [detail_request m "k" "abc123"] [])
                [VStr "https://x/a.json"] (VStr "https://x/a.json")
                {| Response.status := 200; Response.body := "<html>" |}
                (Exn "SyntaxError" "Unexpected token" None)
                eq_refl eq_refl eq_refl eq_refl eq_refl eq_refl eq_refl)
    as Hrun.
  rewrite Hrun. reflexivity.
Defined.

(** ** What a run leaves of the disk and of the object store *)

Section Invariants.
Context {S : Type}.
Variable I : S -> Prop.

Lemma preserves_resolve {A} (a : A) : preserves I (resolve a).
Proof. intros s Hs. exact Hs. Qed.

Lemma preserves_reject {A} e : preserves I (reject (A := A) e).
Proof. intros s Hs. exact Hs. Qed.

Lemma preserves_lift {A} (r : Result A) : preserves I (lift r).
Proof. intros s Hs. exact Hs. Qed.

Lemma preserves_await {A B} (c : Async S A) (k : A -> Async S B) :
  preserves I c -> (forall a, preserves I (k a)) -> preserves I (await c k).
Proof.
  intros Hc Hk s Hs. unfold await. specialize (Hc s Hs).
  destruct (c s) as [[a | e] s1]; cbn [snd] in *; [apply Hk |]; exact Hc.
Qed.

Lemma preserves_retry_from {A} (sleep : Z -> S -> S) (fn : Async S A)
    times delayMs (n : nat) :
  preserves I fn -> (forall ms s, I s -> I (sleep ms s)) ->
  forall attempt s,
    Z.to_nat (times - attempt) = n -> I s ->
    I (snd (retry_from sleep fn times delayMs attempt s)).
Proof.
  intros Hfn Hsleep.
  induction n as [| n IH]; intros attempt s Hn Hs; rewrite retry_from_step;
    specialize (Hfn s Hs); destruct (fn s) as [[v | err] s1];
    cbn [snd] in *; try exact Hfn;
    (destruct (Z.geb_spec (attempt + 1) times); cbn [snd];
     [exact Hfn | try lia]).
  apply IH; [lia | apply Hsleep; exact Hfn].
Qed.

Lemma preserves_retry {A} (sleep : Z -> S -> S) (fn : Async S A)
    times delayMs :
  preserves I fn -> (forall ms s, I s -> I (sleep ms s)) ->
  preserves I (retry sleep fn times delayMs).
Proof.
  intros Hfn Hsleep s Hs. unfold retry.
  apply (preserves_retry_from sleep fn times delayMs (Z.to_nat (times - 0)));
    auto.
Qed.

End Invariants.

Lemma storage_untouched_refl w : storage_untouched w w.
Proof. repeat split. Qed.

Lemma fetch_storage w0 u auth : preserves (storage_untouched w0) (fetch u auth).
Proof.
  intros w Hw. unfold fetch. destruct (network w _ _); exact Hw.
Qed.

Lemma setTimeout_storage w0 ms w :
  storage_untouched w0 w -> storage_untouched w0 (setTimeout ms w).
Proof. intros Hw. exact Hw. Qed.

Section StorageFacts.
Context {rt : Runtime}.

Lemma fetch_detail_storage w0 m key providerId :
  preserves (storage_untouched w0) (fetch_detail m key providerId).
Proof.
  unfold fetch_detail. apply preserves_await.
  - apply preserves_retry; [apply fetch_storage | apply setTimeout_storage].
  - intros r. destruct (negb (Response.ok r));
      [apply preserves_reject | apply preserves_lift].
Qed.

Lemma download_storage w0 key jsonUrl :
  preserves (storage_untouched w0) (download key jsonUrl).
Proof.
  unfold download. apply preserves_retry; [| apply setTimeout_storage].
  apply preserves_await; [apply fetch_storage |].
  intros r. destruct (negb (Response.ok r));
    [apply preserves_reject | apply preserves_resolve].
Qed.

Lemma acquire_storage w0 env m providerId :
  preserves (storage_untouched w0) (acquire env m providerId).
Proof.
  unfold acquire.
  apply preserves_await; [apply fetch_detail_storage | intros detail].
  apply preserves_await; [apply preserves_lift | intros urls].
  apply preserves_await; [apply preserves_lift | intros jsonUrl].
  apply preserves_await; [apply download_storage | intros animBuffer].
  apply preserves_await; [apply preserves_lift | intros parsed].
  apply preserves_resolve.
Qed.

(** X9. A search never touches the disk or the object store, whether it
    resolves or rejects: files, created directories and uploads are the
    same after it as before. *)
Theorem search_leaves_storage env m query opts w :
  storage_untouched w (snd (searchLottieFiles env m query opts w)).
Proof.
  assert (Hp : preserves (storage_untouched w)
                 (searchLottieFiles env m query opts)).
  { unfold searchLottieFiles.
    destruct (negb (is_set (LOTTIE_API_KEY env))); [apply preserves_reject |].
    apply preserves_await.
    - apply preserves_retry; [apply fetch_storage | apply setTimeout_storage].
    - intros r. destruct (negb (Response.ok r)); [apply preserves_reject |].
      apply preserves_await; [apply preserves_lift | intros json].
      apply preserves_lift. }
  apply Hp, storage_untouched_refl.
Qed.

(** X10. An import that fails in steps 1 to 4 (detail request, asset
    location, download, JSON validation) rejects with that failure and has
    written nothing: no file, no directory, no upload. *)
Theorem import_failure_before_storage env m providerId options w e w1 :
  is_set (LOTTIE_API_KEY env) = true ->
  acquire env m providerId w = (Throw e, w1) ->
  importLottieAnimation env m providerId options w = (Throw e, w1) /\
  storage_untouched w w1.
Proof.
  intros Hkey Hacq. split.
  - unfold importLottieAnimation. rewrite Hkey. cbn [negb]. unfold await.
    rewrite Hacq. reflexivity.
  - pose proof (acquire_storage w env m providerId w
                  (storage_untouched_refl w)) as Hs.
    rewrite Hacq in Hs. exact Hs.
Qed.

(** What steps 5 to 7 do, one after the other, when they succeed. *)
Lemma store_and_build_steps env m providerId options detail minified w mf w' :
  store_and_build env m providerId options detail minified w = (Ok mf, w') ->
  let gz := compress minified in
  let hash := contentHash gz in
  let name := outName providerId hash in
  let localPath := path_join (DEFAULT_CACHE_DIR m) name in
  let w2 := with_files
              (with_directories w (directories w ++ [DEFAULT_CACHE_DIR m])%list)
              (<[localPath := gz]> (files w)) in
  exists remoteUrl,
    upload env m options name localPath gz w2 = (Ok remoteUrl, w') /\
    mf = build_manifest providerId options detail hash name remoteUrl
                        localPath gz (now w').
Proof.
  intros Hrun gz hash name localPath w2. unfold store_and_build in Hrun.
  fold gz hash name localPath in Hrun.
  apply await_ok in Hrun as ([] & w1 & Hmkdir & Hrun).
  apply await_ok in Hrun as ([] & w2' & Hwrite & Hrun).
  apply await_ok in Hrun as (remoteUrl & w3 & Hupload & Hrun).
  apply await_ok in Hrun as (importedAt & w4 & Hdate & Hrun).
  unfold resolve in Hrun. injection Hrun as <- <-.
  unfold date_now in Hdate. injection Hdate as <- <-.
  unfold ensureCacheDir, fs_mkdir in Hmkdir.
  destruct (mkdir_fault w _); [discriminate |]. injection Hmkdir as <-.
  unfold fs_writeFile in Hwrite.
  destruct (write_fault _ _); [discriminate |]. injection Hwrite as <-.
  exists remoteUrl. split; [exact Hupload | reflexivity].
Qed.

End StorageFacts.

Lemma import_failure_before_storage_witness :
  let env := Sample.env_s3 in
  let m := load (rt := Sample.runtime) env in
  let w := Sample.world Sample.broken_download in
  exists w1,
    importLottieAnimation (rt := Sample.runtime) env m "abc123" Sample.plain w
      = (Throw (Error "download failed 500"), w1) /\
    storage_untouched w w1.
Proof.
  intros env m w.
  destruct (acquire (rt := Sample.runtime) env m "abc123" w)
    as [[acquired | e] w1] eqn:Hacq; [vm_compute in Hacq; discriminate |].
  assert (He : e = Error "download failed 500").
  { vm_compute in Hacq. injection Hacq as He _. rewrite <- He. reflexivity. }
  subst e. exists w1.
  exact (import_failure_before_storage (rt := Sample.runtime) env m "abc123"
           Sample.plain w _ w1 eq_refl Hacq).
Defined.

(** ** Where the payload goes *)


Section Destinations.
Context {rt : Runtime}.



(** X12. Without a bucket in the environment a successful import uploads
    nothing, even when the caller names a bucket in
    [options.targetS3Bucket]; the asset's URL is [file://] followed by
    the local path. *)
Theorem import_local_only env m providerId options w mf w' :
  importLottieAnimation env m providerId options w = (Ok mf, w') ->
  s3 m = None \/ is_set (S3_BUCKET env) = false ->
  sent w' = sent w /\
  exists a, Manifest.requiredAssets mf = [a] /\
            Asset.url a = "file://" ++ Asset.localPath a.
Proof.
  intros Hrun Hlocal.
  apply import_ok in Hrun as (detail & minified & w1 & Hacq & Hstore).
  pose proof (acquire_storage w env m providerId w
                (storage_untouched_refl w)) as (_ & Hsent1 & _).
  rewrite Hacq in Hsent1. cbn [snd] in Hsent1.
  apply store_and_build_steps in Hstore as (remoteUrl & Hupload & ->).
  apply upload_ok in Hupload as (_ & _ & Hsent).
  destruct Hsent as [([client Hclient] & Hbucket & _) | (_ & Hsent & ->)].
  - destruct Hlocal; congruence.
  - split.
    + rewrite Hsent. cbn [sent with_files with_directories]. exact Hsent1.
    + eexists. split; reflexivity.
Qed.

(** X13. When the object store rejects the upload, the import rejects
    with the store's error, and the local cache file written just before
    stays behind; nothing is recorded as uploaded. *)
Theorem upload_failure_leaves_local_file
    env m providerId options w detail minified w1 client e :
  let gz := compress minified in
  let name := outName providerId (contentHash gz) in
  let localPath := path_join (DEFAULT_CACHE_DIR m) name in
  let cmd := {| Bucket := or_else (targetS3Bucket options)
                                  (or_else (S3_BUCKET env) "");
                Key := "lottie/" ++ name; Body := Some gz;
                ContentType := Some "application/json";
                ContentEncoding := Some "gzip";
                ACL := Some "public-read" |} in
  is_set (LOTTIE_API_KEY env) = true ->
  acquire env m providerId w = (Ok (detail, minified), w1) ->
  s3 m = Some client -> is_set (S3_BUCKET env) = true ->
  mkdir_fault w1 (DEFAULT_CACHE_DIR m) = None ->
  write_fault w1 localPath = None ->
  send_fault w1 cmd = Some e ->
  exists w',
    importLottieAnimation env m providerId options w = (Throw e, w') /\
    files w' = <[localPath := gz]> (files w) /\ sent w' = sent w.
Proof.
  intros gz name localPath cmd Hkey Hacq Hs3 Hbucket Hmkdir Hwrite Hsend.
  pose proof (acquire_storage w env m providerId w
                (storage_untouched_refl w)) as (Hfiles1 & Hsent1 & _).
  rewrite Hacq in Hfiles1, Hsent1. cbn [snd] in Hfiles1, Hsent1.
  unfold importLottieAnimation. rewrite Hkey. cbn [negb].
  unfold await at 1. rewrite Hacq. cbn [fst snd].
  unfold store_and_build. fold gz name localPath.
  unfold await at 1. unfold ensureCacheDir, fs_mkdir. rewrite Hmkdir.
  unfold await at 1. unfold fs_writeFile.
  change (write_fault (with_directories w1 _) localPath)
    with (write_fault w1 localPath).
  rewrite Hwrite. unfold await at 1. unfold upload.
  rewrite Hs3, Hbucket. unfold await at 1. unfold s3_send. fold cmd.
  change (send_fault (with_files _ _) cmd) with (send_fault w1 cmd).
  rewrite Hsend. eexists. split; [reflexivity |].
  cbn [files sent with_files with_directories].
  rewrite Hfiles1, Hsent1. split; reflexivity.
Qed.

End Destinations.


Lemma import_local_only_witness :
  let env := Sample.env_local in
  let m := load (rt := Sample.runtime) env in
  let w := Sample.world (Sample.provider (Sample.stringify Sample.animation)) in
  exists mf w',
    importLottieAnimation (rt := Sample.runtime) env m "abc123"
      Fixtures.to_other_bucket w = (Ok mf, w') /\
    sent w' = sent w /\
    exists a, Manifest.requiredAssets mf = [a] /\
              Asset.url a = "file://" ++ Asset.localPath a.
Proof.
  intros env m w.
  destruct (importLottieAnimation (rt := Sample.runtime) env m "abc123"
              Fixtures.to_other_bucket w) as [[mf | e] w'] eqn:Hrun;
    [| vm_compute in Hrun; discriminate].
  exists mf, w'. split; [reflexivity |].
  exact (import_local_only (rt := Sample.runtime) env m "abc123"
           Fixtures.to_other_bucket w mf w' Hrun (or_introl eq_refl)).
Defined.

Lemma upload_failure_leaves_local_file_witness :
  let env := Sample.env_s3 in
  let m := load (rt := Sample.runtime) env in
  let w := Fixtures.store_down
             (Sample.provider (Sample.stringify Sample.animation)) in
  exists w',
    importLottieAnimation (rt := Sample.runtime) env m "abc123" Sample.plain w
      = (Throw (Exn "S3ServiceException" "SlowDown" None), w') /\
    map_to_list (files w')
      = [("/srv/vfx-api/cache/lottie/lottie_abc123_e2c5a5545211.json.gz",
          compress (rt := Sample.runtime) (Sample.stringify Sample.animation))]
    /\ sent w' = [].
Proof.
  intros env m w.
  destruct (acquire (rt := Sample.runtime) env m "abc123" w)
    as [[[detail minified] | e] w1] eqn:Hacq;
    [| vm_compute in Hacq; discriminate].
  assert (Hmin : minified = Sample.stringify Sample.animation).
  { vm_compute in Hacq. injection Hacq as _ Hmin _. rewrite <- Hmin.
    vm_compute. reflexivity. }
  subst minified.
  destruct (upload_failure_leaves_local_file (rt := Sample.runtime) env m
              "abc123" Sample.plain w detail _ w1 {| region := "us-east-1" |}
              (Exn "S3ServiceException" "SlowDown" None)
              eq_refl Hacq eq_refl eq_refl)
    as (w' & Hrun & Hfiles & Hsent).
  - vm_compute in Hacq. injection Hacq as _ <-. reflexivity.
  - vm_compute in Hacq. injection Hacq as _ <-. reflexivity.
  - vm_compute in Hacq. injection Hacq as _ <-. reflexivity.
  - exists w'. split; [exact Hrun |]. split; [| exact Hsent].
    rewrite Hfiles. vm_compute. reflexivity.
Defined.

(** ** File names *)

Lemma append_eq_tails (a b c d : string) :
  a ++ c = b ++ d -> String.length c = String.length d -> a = b /\ c = d.
Proof.
  revert b. induction a as [| x a IH]; intros [| y b] Heq Hlen.
  - split; [reflexivity | exact Heq].
  - apply (f_equal String.length) in Heq.
    rewrite !length_append in Heq. simpl in Heq. lia.
  - apply (f_equal String.length) in Heq.
    rewrite !length_append in Heq. simpl in Heq. lia.
  - change (String x (a ++ c) = String y (b ++ d)) in Heq.
    injection Heq as -> Heq. destruct (IH b Heq Hlen) as [-> ->].
    split; reflexivity.
Qed.

Lemma outName_injective p1 h1 p2 h2 :
  String.length h1 = String.length h2 ->
  outName p1 h1 = outName p2 h2 -> p1 = p2 /\ h1 = h2.
Proof.
  unfold outName. intros Hlen Heq.
  change (String.append "lottie_") with
    (fun s => String "l" (String "o" (String "t" (String "t" (String "i"
              (String "e" (String "_" s))))))) in Heq.
  cbv beta in Heq. injection Heq as Heq.
  apply append_eq_tails in Heq as [-> Heq].
  - split; [reflexivity |].
    change (String "_" (h1 ++ ".json.gz") = String "_" (h2 ++ ".json.gz"))
      in Heq.
    injection Heq as Heq. apply append_inv_tail in Heq. exact Heq.
  - change (Datatypes.S (String.length (h1 ++ ".json.gz"))
            = Datatypes.S (String.length (h2 ++ ".json.gz"))).
    rewrite !length_append, Hlen. reflexivity.
Qed.

(** X14. A cache file name determines both the provider identifier and
    the content hash it was built from: two imports get the same file
    name only for the same [providerId] and the same hash (an underscore
    inside [providerId] cannot be mistaken for the separator, the hash
    having a fixed length). *)
Theorem filename_identifies_import p1 gz1 p2 gz2 :
  outName p1 (contentHash gz1) = outName p2 (contentHash gz2) ->
  p1 = p2 /\ contentHash gz1 = contentHash gz2.
Proof.
  apply outName_injective.
  rewrite (proj1 (contentHash_hex12 gz1)), (proj1 (contentHash_hex12 gz2)).
  reflexivity.
Qed.

Lemma filename_identifies_import_witness :
  "a_b" = "a_b" /\
  contentHash (list_byte_of_string "x") = contentHash (list_byte_of_string "x").
Proof.
  apply (filename_identifies_import "a_b" (list_byte_of_string "x")
           "a_b" (list_byte_of_string "x")).
  reflexivity.
Defined.

(** ** More on search normalization *)

Lemma or_truthy_r a b :
  JS.truthy b = true -> JS.truthy (JS.or a b) = true.
Proof. unfold JS.or. destruct (JS.truthy a) eqn:Ha; auto. Qed.

Lemma or_null a : JS.or a VNull = VNull \/ JS.truthy (JS.or a VNull) = true.
Proof. unfold JS.or. destruct (JS.truthy a) eqn:Ha; auto. Qed.

(** X15. Every normalized search result has the constant provider, type
    and score, a truthy title, license and tags (a falsy provider value
    such as an empty title is replaced by the default as well), and a
    preview, duration and frame count that are either truthy or [null]. *)
Theorem normalized_fields_defined item r :
  normalize_item item = Ok r ->
  SearchResult.provider r = "lottiefiles" /\
  SearchResult.type r = "lottie" /\
  SearchResult.score r = 1 /\
  JS.truthy (SearchResult.title r) = true /\
  JS.truthy (SearchResult.license r) = true /\
  JS.truthy (SearchResult.tags r) = true /\
  (SearchResult.preview r = VNull \/
   JS.truthy (SearchResult.preview r) = true) /\
  (SearchResult.duration_ms (SearchResult.meta r) = VNull \/
   JS.truthy (SearchResult.duration_ms (SearchResult.meta r)) = true) /\
  (SearchResult.frames (SearchResult.meta r) = VNull \/
   JS.truthy (SearchResult.frames (SearchResult.meta r)) = true).
Proof.
  intros Hrun. apply normalize_item_ok in Hrun as (_ & _ & ->).
  cbn [SearchResult.provider SearchResult.type
    SearchResult.score SearchResult.title SearchResult.license
    SearchResult.tags SearchResult.preview SearchResult.meta
    SearchResult.duration_ms SearchResult.frames].
  repeat split; try (apply or_truthy_r; reflexivity); apply or_null.
Qed.

Lemma normalized_fields_defined_witness :
  exists r,
    normalize_item (VObj [("title", VStr ""); ("license", VNull);
                          ("tags", VNum 0); ("frames", VNum 0)]) = Ok r /\
    SearchResult.title r = VStr "Lottie" /\
    SearchResult.license r = VStr "unknown" /\
    SearchResult.tags r = VArr [] /\
    SearchResult.frames (SearchResult.meta r) = VNull /\
    JS.truthy (SearchResult.title r) = true.
Proof.
  eexists. split; [reflexivity |]. do 4 (split; [reflexivity |]).
  exact (proj1 (proj2 (proj2 (proj2
    (normalized_fields_defined
       (VObj [("title", VStr ""); ("license", VNull);
              ("tags", VNum 0); ("frames", VNum 0)]) _ eq_refl))))).
Defined.

Lemma normalize_item_throws item e :
  normalize_item item = Throw e ->
  (JS.is_nullish item = true \/ JS.convertible (item_id item) = false) /\
  exn_name e = "TypeError".
Proof.
  unfold normalize_item. destruct (JS.is_nullish item) eqn:Hn.
  - intros Hrun. split; [left; reflexivity |].
    destruct item; try discriminate Hn; injection Hrun as <-; reflexivity.
  - rewrite (get_not_nullish _ _ Hn). fold (item_id item).
    unfold JS.ToString.
    destruct (JS.convertible (item_id item)); [discriminate |].
    intros [= <-]. split; [right |]; reflexivity.
Qed.

Lemma map_items_fails_iff l :
  (exists e, map_items l = Throw e) <->
  Exists (fun item => JS.is_nullish item = true \/
                      JS.convertible (item_id item) = false) l.
Proof.
  induction l as [| item l IH]; simpl.
  - split; [intros [e He]; discriminate | intros Hex; inversion Hex].
  - destruct (normalize_item item) as [r | e] eqn:Hitem.
    + apply normalize_item_ok in Hitem as (Hn & Hid & _).
      destruct (map_items l) as [rs | e]; split.
      * intros [e He]; discriminate.
      * intros Hex. inversion Hex as [? ? [Hh | Hh] | ? ? Ht]; subst;
          [congruence | congruence |].
        apply IH in Ht as [e He]. discriminate.
      * intros _. apply Exists_cons_tl, IH. eauto.
      * intros _. eauto.
    + split; [| eauto]. intros _. apply Exists_cons_hd.
      apply (normalize_item_throws _ _ Hitem).
Qed.

Lemma map_items_error_name l e :
  map_items l = Throw e -> exn_name e = "TypeError".
Proof.
  induction l as [| item l IH]; simpl; [discriminate |].
  destruct (normalize_item item) as [r | e'] eqn:Hitem.
  - destruct (map_items l); [discriminate |]. intros [= <-]. auto.
  - intros [= <-]. apply (normalize_item_throws _ _ Hitem).
Qed.

(** X16. Normalizing the provider's items fails exactly when one of them
    is [null] (or [undefined]), or has an identifier
    ([item.id || item._id || item.uid || item.uuid]) that [String] cannot
    convert: an object with an own [toString] key, or an array holding
    one. The failure is then a TypeError, and no result is returned for
    the other items either. *)
Theorem normalization_fails_iff_null_item l :
  ((exists e, map_items l = Throw e) <->
   Exists (fun item => JS.is_nullish item = true \/
                       JS.convertible (item_id item) = false) l) /\
  (forall e, map_items l = Throw e -> exn_name e = "TypeError").
Proof.
  split; [apply map_items_fails_iff | apply map_items_error_name].
Qed.

(** X17. The shapes of [data]: when the provider's response has no
    [data] (or a falsy one) the search resolves with no results and a
    total of 0 unless the provider gave a truthy total; when [data] is
    truthy but not an array, normalization throws a TypeError. *)
Theorem response_data_shapes json query page per_page :
  JS.is_nullish json = false ->
  (JS.truthy (JS.field "data" json) = false ->
   exists r, normalize_response json query page per_page = Ok r /\
             SearchResponse.results r = [] /\
             SearchResponse.total r = JS.or (JS.field "total" json) (VNum 0))
  /\
  (JS.truthy (JS.field "data" json) = true ->
   (forall l, JS.field "data" json <> VArr l) ->
   normalize_response json query page per_page
   = Throw (TypeError "(json.data || []).map is not a function")).
Proof.
  intros Hn. unfold normalize_response, normalize_items, JS.or.
  rewrite (get_not_nullish _ _ Hn). split.
  - intros ->. simpl. eexists. repeat split.
  - intros -> Hnot. destruct (JS.field "data" json) eqn:Hd;
      try reflexivity. exfalso. exact (Hnot _ eq_refl).
Qed.

Lemma response_data_shapes_witness :
  (exists r, normalize_response (VObj [("total", VNum 9)]) "fire" 1 24 = Ok r /\
             SearchResponse.results r = [] /\
             SearchResponse.total r = VNum 9) /\
  normalize_response (VObj [("data", VObj [("items", VArr [])])]) "fire" 1 24
  = Throw (TypeError "(json.data || []).map is not a function").
Proof.
  split.
  - exact (proj1 (response_data_shapes (VObj [("total", VNum 9)]) "fire" 1 24
                    eq_refl) eq_refl).
  - apply (proj2 (response_data_shapes
                    (VObj [("data", VObj [("items", VArr [])])]) "fire" 1 24
                    eq_refl)); [reflexivity | discriminate].
Defined.

Lemma normalization_fails_iff_null_item_witness :
  (exists e, map_items [VObj [("id", VNum 1)]; VNull] = Throw e /\
             exn_name e = "TypeError") /\
  (exists e, map_items [VObj [("id", VObj [("toString", VNum 1)])]] = Throw e /\
             exn_name e = "TypeError") /\
  (exists rs, map_items [VObj [("id", VObj [("a", VNum 1)])];
                         VObj [("id", VArr [VNum 1; VNull; VStr "x"])]]
              = Ok rs /\
              map SearchResult.providerId rs = ["[object Object]"; "1,,x"]).
Proof.
  split; [| split].
  - destruct (normalization_fails_iff_null_item
                [VObj [("id", VNum 1)]; VNull]) as [[_ Hfail] Hname].
    destruct Hfail as [e He].
    + apply Exists_cons_tl, Exists_cons_hd. left. reflexivity.
    + exists e. split; [exact He | exact (Hname e He)].
  - destruct (normalization_fails_iff_null_item
                [VObj [("id", VObj [("toString", VNum 1)])]])
      as [[_ Hfail] Hname].
    destruct Hfail as [e He].
    + apply Exists_cons_hd. right. reflexivity.
    + exists e. split; [exact He | exact (Hname e He)].
  - eexists. split; reflexivity.
Defined.

(** ** Choosing the download URL *)

Lemma substring_all s : substring 0 (String.length s) s = s.
Proof. induction s as [| c s IH]; simpl; [| rewrite IH]; reflexivity. Qed.

Lemma prefix_refl s : String.prefix s s = true.
Proof.
  induction s as [| c s IH]; simpl; [reflexivity |].
  destruct (ascii_dec c c); [exact IH | contradiction].
Qed.

Lemma includes_cons c s t :
  JS.includes (String c s) t = String.prefix t (String c s) || JS.includes s t.
Proof. reflexivity. Qed.

(** A string that ends with [t] includes [t]: the first test of the
    selection predicate adds nothing to the second. *)
Lemma ends_with_includes s t :
  JS.ends_with s t = true -> JS.includes s t = true.
Proof.
  unfold JS.ends_with. cbv zeta.
  induction s as [| c s IH]; intros Hends;
    apply andb_true_iff in Hends as [Hlen Heq];
    apply Nat.leb_le in Hlen; apply String.eqb_eq in Heq.
  - destruct t; [reflexivity | simpl in Hlen; lia].
  - rewrite includes_cons.
    destruct (Nat.eq_dec (String.length t) (String.length (String c s)))
      as [Hfull | Hshort].
    + rewrite Hfull, Nat.sub_diag, substring_all in Heq. subst t.
      rewrite prefix_refl. reflexivity.
    + apply orb_true_iff. right. apply IH.
      simpl in Hlen, Hshort.
      apply andb_true_iff. split; [apply Nat.leb_le; lia |].
      apply String.eqb_eq. simpl String.length in Heq.
      replace (Datatypes.S (String.length s) - String.length t)%nat
        with (Datatypes.S (String.length s - String.length t)) in Heq by lia.
      exact Heq.
Qed.

Lemma includes_prefix s t : String.prefix t s = true -> JS.includes s t = true.
Proof.
  intros Hp. destruct s as [| c s].
  - change (JS.includes "" t) with (String.prefix t "" || false).
    rewrite Hp. reflexivity.
  - rewrite includes_cons, Hp. reflexivity.
Qed.

Lemma includes_dot_json s :
  JS.includes s ".json" = true -> JS.includes s "json" = true.
Proof.
  induction s as [| c s IH]; intros Hi; [cbv in Hi; discriminate Hi |].
  rewrite includes_cons in *. apply orb_true_iff. right.
  apply orb_true_iff in Hi as [Hp | Hi]; [| apply IH; exact Hi].
  cbn [String.prefix] in Hp. destruct (ascii_dec "." c); [| discriminate Hp].
  apply includes_prefix. exact Hp.
Qed.

Lemma wants_json_includes s :
  JS.ends_with s ".json" || JS.includes s "json" = JS.includes s "json".
Proof.
  destruct (JS.ends_with s ".json") eqn:Hends; [| reflexivity].
  apply ends_with_includes, includes_dot_json in Hends.
  rewrite Hends. reflexivity.
Qed.

Lemma find_json_strings (ss : list string) :
  find_json (map VStr ss)
  = Ok (match List.find (fun s => JS.includes s "json") ss with
        | Some s => VStr s
        | None => VUndef
        end).
Proof.
  induction ss as [| s ss IH]; [reflexivity |].
  cbn [map find_json List.find]. rewrite wants_json_includes.
  destruct (JS.includes s "json"); [reflexivity | exact IH].
Qed.

(** X18. Among candidate URLs that are all strings, the download URL is
    the first one that contains ["json"] anywhere (a path ending in
    [.json], but also a host or query string with these letters), and the
    first candidate when none does. *)
Theorem pick_json_url_strings (s0 : string) (ss : list string) :
  pick_json_url (map VStr (s0 :: ss))
  = Ok (VStr (default s0 (List.find (fun s => JS.includes s "json")
                                    (s0 :: ss)))).
Proof.
  unfold pick_json_url. rewrite find_json_strings.
  destruct (List.find _ (s0 :: ss)) as [s |] eqn:Hfind; [| reflexivity].
  apply List.find_some in Hfind as [_ Hjson].
  unfold JS.or. destruct s as [| c s]; [discriminate | reflexivity].
Qed.

(** X19. A truthy candidate that is not a string (a number, an object)
    met before any string containing ["json"] makes the selection throw a
    TypeError: such a provider document fails the import although a
    candidate was located. *)
Theorem pick_json_url_not_a_string (ss : list string) v rest :
  Forall (fun s => JS.includes s "json" = false) ss ->
  (forall s, v <> VStr s) ->
  pick_json_url (map VStr ss ++ v :: rest)%list
  = Throw (TypeError "u.endsWith is not a function").
Proof.
  intros Hnone Hv. unfold pick_json_url.
  assert (Hfind : find_json (map VStr ss ++ v :: rest)%list
                  = Throw (TypeError "u.endsWith is not a function")).
  { induction Hnone as [| s ss Hs _ IH].
    - destruct v; try reflexivity. exfalso. exact (Hv _ eq_refl).
    - cbn [map app find_json]. rewrite wants_json_includes, Hs. exact IH. }
  rewrite Hfind. reflexivity.
Qed.

Lemma pick_json_url_not_a_string_witness :
  pick_json_url [VStr "https://x/a.gif"; VNum 42; VStr "https://x/a.json"]
  = Throw (TypeError "u.endsWith is not a function").
Proof.
  apply (pick_json_url_not_a_string ["https://x/a.gif"] (VNum 42)
           [VStr "https://x/a.json"]).
  - repeat constructor.
  - discriminate.
Defined.

(** A [.lottie] archive is not recognized, and a URL that merely mentions
    json is. *)
Example pick_json_url_examples :
  pick_json_url [VStr "https://x/a.lottie"; VStr "https://x/b.gif"]
    = Ok (VStr "https://x/a.lottie") /\
  pick_json_url [VStr "https://x/a.lottie"; VStr "https://json.x/b.gif"]
    = Ok (VStr "https://json.x/b.gif").
Proof. split; reflexivity. Qed.

(** ** The located candidates *)

Lemma same_value_zero_sym a b :
  JS.same_value_zero a b = JS.same_value_zero b a.
Proof.
  destruct a, b; simpl; try reflexivity.
  - destruct b, b0; reflexivity.
  - apply Z.eqb_sym.
  - apply String.eqb_sym.
Qed.

Lemma same_value_zero_string s v :
  JS.same_value_zero (VStr s) v = true -> v = VStr s.
Proof.
  destruct v; simpl; try discriminate.
  intros Heq. apply String.eqb_eq in Heq. subst. reflexivity.
Qed.

Lemma set_dedup_acc_In seen l u :
  In u (JS.set_dedup_acc seen l) -> In u l.
Proof.
  revert seen. induction l as [| v l IH]; intros seen; simpl; [auto |].
  destruct (existsb (JS.same_value_zero v) seen).
  - intros Hin. right. exact (IH _ Hin).
  - intros [-> | Hin]; [left; reflexivity | right; exact (IH _ Hin)].
Qed.

Lemma set_dedup_acc_distinct l :
  forall seen,
    Forall (fun x => existsb (JS.same_value_zero x) seen = false)
           (JS.set_dedup_acc seen l) /\
    distinct_values (JS.set_dedup_acc seen l).
Proof.
  induction l as [| v l IH]; intros seen; simpl.
  - split; constructor.
  - destruct (existsb (JS.same_value_zero v) seen) eqn:Hseen; [apply IH |].
    destruct (IH (v :: seen)) as [Hfresh Hdistinct]. split.
    + constructor; [exact Hseen |].
      eapply Forall_impl; [exact Hfresh |].
      intros x Hx. simpl in Hx. apply orb_false_iff in Hx. apply Hx.
    + constructor; [| exact Hdistinct].
      clear Hdistinct. induction Hfresh as [| x rest Hx _ IHrest];
        [reflexivity |].
      simpl. rewrite IHrest, orb_false_r.
      simpl in Hx. apply orb_false_iff in Hx as [Hx _].
      rewrite same_value_zero_sym. exact Hx.
Qed.

Lemma set_dedup_acc_keeps_strings l s :
  forall seen,
    In (VStr s) l ->
    existsb (JS.same_value_zero (VStr s)) seen = true \/
    In (VStr s) (JS.set_dedup_acc seen l).
Proof.
  induction l as [| v l IH]; intros seen Hin; [destruct Hin |].
  simpl. destruct (existsb (JS.same_value_zero v) seen) eqn:Hseen.
  - destruct Hin as [-> | Hin]; [left; exact Hseen | apply IH; exact Hin].
  - destruct Hin as [-> | Hin]; [right; left; reflexivity |].
    destruct (IH (v :: seen) Hin) as [Hhit | Hlater];
      [| right; right; exact Hlater].
    simpl in Hhit. apply orb_true_iff in Hhit as [Hsame | Hhit];
      [| left; exact Hhit].
    apply same_value_zero_string in Hsame. subst v. right. left. reflexivity.
Qed.

Lemma filter_all_truthy l :
  Forall (fun u => JS.truthy u = true) l -> List.filter JS.truthy l = l.
Proof.
  induction 1 as [| v l Hv _ IH]; simpl; [reflexivity |].
  rewrite Hv, IH. reflexivity.
Qed.

(** X20. The candidate list that location returns is the list of pushed
    candidates with later repetitions dropped: every member is a truthy
    value read from the detail document, no two members are the same
    value, every URL string that was a candidate is kept, the first
    candidate discovered (an entry of [files] before any top-level field)
    stays first, and the final [filter(Boolean)] removes nothing. *)
Theorem locate_result detail urls :
  locate detail = Ok urls ->
  urls = JS.set_dedup (candidateUrls detail) /\
  Forall (fun u => JS.truthy u = true) urls /\
  distinct_values urls /\
  (forall u, In u urls -> In u (candidateUrls detail)) /\
  (forall s, In (VStr s) (candidateUrls detail) -> In (VStr s) urls) /\
  hd_error urls = hd_error (candidateUrls detail).
Proof.
  unfold locate. destruct (JS.get "files" detail); [| discriminate].
  pose proof (candidateUrls_truthy detail) as Htruthy.
  assert (Hkept : Forall (fun u => JS.truthy u = true)
                    (JS.set_dedup (candidateUrls detail))).
  { apply List.Forall_forall. intros u Hu.
    apply set_dedup_acc_In in Hu.
    rewrite List.Forall_forall in Htruthy. exact (Htruthy u Hu). }
  rewrite (filter_all_truthy _ Hkept).
  destruct (JS.set_dedup (candidateUrls detail)) as [| u0 rest] eqn:Hdedup;
    [discriminate |].
  intros [= <-]. rewrite <- Hdedup in Hkept |- *. split; [reflexivity |].
  split; [exact Hkept |].
  split; [apply set_dedup_acc_distinct |].
  split; [intros u; apply set_dedup_acc_In |].
  split.
  - intros s Hs.
    destruct (set_dedup_acc_keeps_strings _ s [] Hs) as [Habs | Hin];
      [discriminate | exact Hin].
  - destruct (candidateUrls detail); reflexivity.
Qed.

Lemma locate_result_witness :
  let detail :=
    VObj [("files", VObj [("gif", VObj [("url", VStr "https://x/a.gif")]);
                          ("json", VObj [("url", VStr "https://x/a.json");
                                         ("download_url", VStr "https://x/a.gif")])]);
          ("preview", VStr "https://x/a.json")] in
  locate detail = Ok [VStr "https://x/a.gif"; VStr "https://x/a.json"] /\
  candidateUrls detail
    = [VStr "https://x/a.gif"; VStr "https://x/a.json";
       VStr "https://x/a.gif"; VStr "https://x/a.json"] /\
  distinct_values [VStr "https://x/a.gif"; VStr "https://x/a.json"].
Proof.
  intros detail. split; [reflexivity |]. split; [reflexivity |].
  exact (proj1 (proj2 (proj2 (locate_result detail _ eq_refl)))).
Defined.

(** ** The request budget *)

Lemma within_pure {A} (c : Async World A) :
  (forall w, snd (c w) = w) -> requests_within 0 0 c.
Proof. intros Hc w. rewrite Hc. lia. Qed.

Lemma within_await {A B} lo hi1 hi2 (c : Async World A)
    (k : A -> Async World B) :
  requests_within lo hi1 c ->
  (forall a, requests_within 0 hi2 (k a)) ->
  requests_within lo (hi1 + hi2) (await c k).
Proof.
  intros Hc Hk w. unfold await. specialize (Hc w).
  destruct (c w) as [[a | e] w1]; cbn [snd] in *; [| lia].
  specialize (Hk a w1). lia.
Qed.

Lemma within_weaken {A} lo hi hi' (c : Async World A) :
  (hi <= hi')%nat -> requests_within lo hi c -> requests_within 0 hi' c.
Proof. intros Hle Hc w. specialize (Hc w). lia. Qed.

Lemma fetch_one_request u auth w :
  length (requests (snd (fetch u auth w)))
  = Datatypes.S (length (requests w)).
Proof.
  unfold fetch. destruct (network w _ _); cbn [snd requests with_requests];
    rewrite length_app; simpl; lia.
Qed.

Lemma retry_fetch_within u auth delayMs :
  requests_within 1 3 (retry setTimeout (fetch u auth) 3 delayMs).
Proof.
  intros w.
  exact (retry_calls setTimeout (fetch u auth)
           (fun w => length (requests w)) (fetch_one_request u auth)
           (fun ms w => eq_refl) 3 delayMs w).
Qed.

Section Budget.
Context {rt : Runtime}.

Lemma download_within key jsonUrl : requests_within 1 3 (download key jsonUrl).
Proof.
  intros w. unfold download.
  refine (retry_calls setTimeout _ (fun w => length (requests w)) _
            (fun ms w => eq_refl) 3 400 w).
  intros w0. unfold await.
  pose proof (fetch_one_request (JS.to_string jsonUrl) ("Bearer " ++ key) w0)
    as Hone.
  destruct (fetch _ _ w0) as [[r | e] w1]; cbn [snd] in *; [| exact Hone].
  destruct (negb (Response.ok r)); exact Hone.
Qed.

Lemma fetch_detail_within m key providerId :
  requests_within 1 3 (fetch_detail m key providerId).
Proof.
  unfold fetch_detail.
  apply (within_await 1 3 0); [apply retry_fetch_within |].
  intros r. apply within_pure. intros w.
  destruct (negb (Response.ok r)); reflexivity.
Qed.

Lemma acquire_within env m providerId :
  requests_within 1 6 (acquire env m providerId).
Proof.
  unfold acquire.
  apply (within_await 1 3 3); [apply fetch_detail_within | intros detail].
  apply (within_await 0 0 3); [apply within_pure; reflexivity | intros urls].
  apply (within_await 0 0 3); [apply within_pure; reflexivity | intros jsonUrl].
  apply (within_await 0 3 0);
    [apply (within_weaken 1 3 3); [lia | apply download_within] |].
  intros animBuffer.
  apply (within_await 0 0 0); [apply within_pure; reflexivity | intros parsed].
  apply within_pure. reflexivity.
Qed.

Lemma store_and_build_requests env m providerId options detail minified w :
  requests (snd (store_and_build env m providerId options detail minified w))
  = requests w.
Proof.
  assert (Hp : preserves (fun w' => requests w' = requests w)
                 (store_and_build env m providerId options detail minified)).
  { unfold store_and_build.
    apply preserves_await.
    { intros w0 Hw0. unfold ensureCacheDir, fs_mkdir.
      destruct (mkdir_fault w0 _); exact Hw0. }
    intros _. apply preserves_await.
    { intros w0 Hw0. unfold fs_writeFile.
      destruct (write_fault w0 _); exact Hw0. }
    intros _. apply preserves_await.
    { unfold upload. destruct (s3 m); [| apply preserves_resolve].
      destruct (is_set (S3_BUCKET env)); [| apply preserves_resolve].
      apply preserves_await.
      { intros w0 Hw0. unfold s3_send.
        destruct (send_fault w0 _); exact Hw0. }
      intros _. apply preserves_await; [| intros _; apply preserves_resolve].
      intros w0 Hw0. unfold getSignedUrl.
      destruct (presign_fault w0 _); exact Hw0. }
    intros remoteUrl. apply preserves_await; [| intros; apply preserves_resolve].
    intros w0 Hw0. exact Hw0. }
  apply Hp. reflexivity.
Qed.

(** X21. The request budget: whatever the provider answers, a search
    makes at most 3 requests and an import at most 6 (3 for the detail
    document, 3 for the asset); with the API key set each makes at least
    one. *)
Theorem request_budget env m query opts providerId options w :
  let after_search := snd (searchLottieFiles env m query opts w) in
  let after_import := snd (importLottieAnimation env m providerId options w) in
  (length (requests w) <= length (requests after_search)
   <= length (requests w) + 3)%nat /\
  (length (requests w) <= length (requests after_import)
   <= length (requests w) + 6)%nat /\
  (is_set (LOTTIE_API_KEY env) = true ->
   (length (requests w) + 1 <= length (requests after_search))%nat /\
   (length (requests w) + 1 <= length (requests after_import))%nat).
Proof.
  cbv zeta. unfold searchLottieFiles, importLottieAnimation.
  destruct (is_set (LOTTIE_API_KEY env)); cbn [negb].
  - assert (Hsearch : requests_within 1 3
      (let* res := retry setTimeout
                     (fetch (LOTTIE_BASE m ++ "/animations?query=" ++
                             encodeURIComponent query ++ "&page=" ++
                             JS.num_to_string (default 1 (page opts)) ++
                             "&per_page=" ++
                             JS.num_to_string (default 24 (per_page opts)))
                            ("Bearer " ++ or_else (LOTTIE_API_KEY env) ""))
                     3 300 in
       if negb (Response.ok res)
       then reject (Exn "Error"
                      ("LottieFiles search failed: " ++
                       JS.num_to_string (Response.status res) ++ " " ++
                       Response.text res)
                      (Some (Response.status res)))
       else let* json := lift (JSON_parse (Response.text res)) in
            lift (normalize_response json query (default 1 (page opts))
                    (default 24 (per_page opts))))).
    { apply (within_await 1 3 0); [apply retry_fetch_within | intros res].
      apply within_pure. intros w0. unfold await, lift.
      destruct (negb (Response.ok res)); [reflexivity |].
      destruct (JSON_parse _); reflexivity. }
    assert (Himport : requests_within 1 6
      (let* acquired := acquire env m providerId in
       store_and_build env m providerId options (fst acquired)
                       (snd acquired))).
    { apply (within_await 1 6 0); [apply acquire_within | intros acquired].
      intros w0. rewrite store_and_build_requests. lia. }
    specialize (Hsearch w). specialize (Himport w). lia.
  - unfold reject. cbn [snd]. lia.
Qed.

(** ** The manifest's descriptive fields *)

(** X22. In the manifest of a successful import the display name, the
    version and the license are always truthy (without a title and a name
    in the provider's detail the display name is ["Lottie "] followed by
    the provider identifier); the source names [lottiefiles] and the
    identifier as given, and the asset is typed [lottie] with MIME type
    [application/json]. *)
Theorem manifest_fields_defined env m providerId options w mf w' :
  importLottieAnimation env m providerId options w = (Ok mf, w') ->
  JS.truthy (Manifest.displayName mf) = true /\
  JS.truthy (Manifest.version mf) = true /\
  JS.truthy (Manifest.license mf) = true /\
  (JS.truthy (JS.field "title" (Manifest.rawDetail mf)) = false ->
   JS.truthy (JS.field "name" (Manifest.rawDetail mf)) = false ->
   Manifest.displayName mf = VStr ("Lottie " ++ providerId)) /\
  Manifest.source mf = {| Source.provider := "lottiefiles";
                          Source.providerId := providerId |} /\
  map (fun a => (Asset.type a, Asset.mime a)) (Manifest.requiredAssets mf)
  = [("lottie", "application/json")].
Proof.
  intros Hrun.
  apply import_ok in Hrun as (detail & minified & w1 & _ & Hstore).
  apply store_and_build_ok in Hstore as (remoteUrl & -> & _ & _).
  cbn [build_manifest Manifest.displayName Manifest.version Manifest.license
       Manifest.rawDetail Manifest.source Manifest.requiredAssets map
       Asset.type Asset.mime].
  repeat split; try (apply or_truthy_r; reflexivity).
  intros Ht Hn. unfold JS.or. rewrite Ht, Hn. reflexivity.
Qed.

End Budget.

Lemma manifest_fields_defined_witness :
  let env := Sample.env_local in
  let m := load (rt := Sample.runtime) env in
  let w := Sample.world (Sample.provider (Sample.stringify Sample.animation)) in
  exists mf w',
    importLottieAnimation (rt := Sample.runtime) env m "abc123" Sample.plain w
      = (Ok mf, w') /\
    Manifest.displayName mf = VStr "Fire" /\
    JS.truthy (Manifest.version mf) = true /\
    JS.truthy (Manifest.license mf) = true.
Proof.
  intros env m w.
  destruct (importLottieAnimation (rt := Sample.runtime) env m "abc123"
              Sample.plain w) as [[mf | e] w'] eqn:Hrun;
    [| vm_compute in Hrun; discriminate].
  destruct (manifest_fields_defined (rt := Sample.runtime) env m "abc123"
              Sample.plain w mf w' Hrun) as (_ & Hversion & Hlicense & _).
  exists mf, w'. split; [reflexivity |].
  split; [| split; assumption].
  vm_compute in Hrun. injection Hrun as <- _. reflexivity.
Defined.

(** ** Request URLs *)

Lemma hex_digit_upper_unreserved d :
  0 <= d < 16 -> uri_unreserved (Hex.digit true d) = true.
Proof.
  intros Hd.
  assert (Hcases : d = 0 \/ d = 1 \/ d = 2 \/ d = 3 \/ d = 4 \/ d = 5 \/
                   d = 6 \/ d = 7 \/ d = 8 \/ d = 9 \/ d = 10 \/ d = 11 \/
                   d = 12 \/ d = 13 \/ d = 14 \/ d = 15) by lia.
  repeat (destruct Hcases as [-> | Hcases]; [reflexivity |]).
  subst d. reflexivity.
Qed.

Lemma ascii_code_bound c : 0 <= Z.of_N (N_of_ascii c) < 256.
Proof.
  pose proof (N_ascii_bounded c) as Hb. lia.
Qed.

Lemma encodeURIComponent_safe s :
  Forall (fun c => uri_unreserved c = true \/ c = "%"%char)
         (list_ascii_of_string (encodeURIComponent s)).
Proof.
  induction s as [| c s IH]; [constructor |].
  cbn [encodeURIComponent].
  destruct (uri_unreserved c) eqn:Hc; cbn [list_ascii_of_string].
  - constructor; [left; exact Hc | exact IH].
  - pose proof (ascii_code_bound c) as Hb.
    constructor; [right; reflexivity |].
    constructor.
    { left. apply hex_digit_upper_unreserved.
      split; [apply Z.div_pos; lia | apply Z.div_lt_upper_bound; lia]. }
    constructor; [| exact IH].
    left. apply hex_digit_upper_unreserved. apply Z.mod_pos_bound. lia.
Qed.

Lemma encodeURIComponent_unreserved s :
  Forall (fun c => uri_unreserved c = true) (list_ascii_of_string s) ->
  encodeURIComponent s = s.
Proof.
  induction s as [| c s IH]; [reflexivity |].
  cbn [list_ascii_of_string encodeURIComponent]. intros Hall.
  inversion Hall as [| ? ? Hc Hrest]; subst.
  rewrite Hc, (IH Hrest). reflexivity.
Qed.

(** X23. The detail request goes to [LOTTIE_BASE/animations/] followed by
    one path segment: the provider identifier with every character
    outside letters, digits and [-_.!~*'()] percent-encoded, so that the
    segment holds no slash, question mark, ampersand or number sign; an
    identifier made of unreserved characters only is used as it is. *)
Theorem detail_request_segment m key providerId :
  exists segment,
    url (detail_request m key providerId)
      = LOTTIE_BASE m ++ "/animations/" ++ segment /\
    Forall (fun c => c <> "/"%char /\ c <> "?"%char /\ c <> "&"%char /\
                     c <> "#"%char)
           (list_ascii_of_string segment) /\
    (Forall (fun c => uri_unreserved c = true)
            (list_ascii_of_string providerId) ->
     segment = providerId).
Proof.
  exists (encodeURIComponent providerId). split; [reflexivity |].
  split; [| apply encodeURIComponent_unreserved].
  eapply Forall_impl; [apply encodeURIComponent_safe |].
  intros c [Hc | ->]; [| repeat split; discriminate].
  repeat split; intros ->; discriminate Hc.
Qed.

Lemma detail_request_segment_witness :
  url (detail_request (load (rt := Sample.runtime) Sample.env_local) "k"
                      "abc-123")
  = "https://api.lottiefiles.com/v2/animations/abc-123".
Proof.
  destruct (detail_request_segment
              (load (rt := Sample.runtime) Sample.env_local) "k" "abc-123")
    as (segment & Hurl & _ & Hsame).
  rewrite Hurl, Hsame; [reflexivity |]. repeat constructor.
Defined.

(** ** The whole import, when every step succeeds *)

Section HappyPath.
Context {rt : Runtime}.

(** X24. Sufficient conditions for an import to succeed without the
    object store: the detail document is fetched and names a candidate,
    the chosen URL answers with a success status and a body that parses,
    and the disk accepts the directory and the file. The import then
    resolves to the manifest built from these values, with a [file://]
    URL, after a single asset request and no wait; the cache directory
    has been created and the file holds the compressed payload. *)
Theorem import_succeeds_locally
    env m providerId options w detail w1 urls jsonUrl r parsed :
  let key := or_else (LOTTIE_API_KEY env) "" in
  let rq := asset_request key jsonUrl in
  let gz := compress (minify parsed) in
  let hash := contentHash gz in
  let name := outName providerId hash in
  let localPath := path_join (DEFAULT_CACHE_DIR m) name in
  is_set (LOTTIE_API_KEY env) = true ->
  fetch_detail m key providerId w = (Ok detail, w1) ->
  locate detail = Ok urls ->
  pick_json_url urls = Ok jsonUrl ->
  network w1 (length (requests w1)) rq = Resolves r ->
  Response.ok r = true ->
  JSON_parse (Response.text r) = Ok parsed ->
  mkdir_fault w1 (DEFAULT_CACHE_DIR m) = None ->
  write_fault w1 localPath = None ->
  s3 m = None \/ is_set (S3_BUCKET env) = false ->
  importLottieAnimation env m providerId options w
  = (Ok (build_manifest providerId options detail hash name
                        ("file://" ++ localPath) localPath gz (now w1)),
     with_files
       (with_directories (advanced w1 [rq] [])
                         (directories w1 ++ [DEFAULT_CACHE_DIR m])%list)
       (<[localPath := gz]> (files w1))).
Proof.
  intros key rq gz hash name localPath Hkey Hdetail Hlocate Hpick Hnet Hok
         Hparse Hmkdir Hwrite Hlocal.
  unfold importLottieAnimation. rewrite Hkey. cbn [negb].
  assert (Hacq : acquire env m providerId w
                 = (Ok (detail, minify parsed), advanced w1 [rq] [])).
  { unfold acquire. fold key. unfold await at 1. rewrite Hdetail.
    unfold lift at 1, await at 1. rewrite Hlocate.
    unfold lift at 1, await at 1. rewrite Hpick. unfold await at 1.
    assert (Hdl : download key jsonUrl w1
                  = (Ok (Response.buffer r), advanced w1 [rq] [])).
    { unfold download. apply retry_first_success.
      rewrite <- (advanced_nil w1) at 1. rewrite download_attempt.
      cbv zeta. simpl length. rewrite Nat.add_0_r. fold rq.
      rewrite Hnet, Hok. reflexivity. }
    rewrite Hdl. unfold await, lift, validate, Response.buffer.
    rewrite string_of_list_byte_of_string.
    unfold Response.text in Hparse. rewrite Hparse. reflexivity. }
  unfold await at 1. rewrite Hacq. cbn [fst snd].
  unfold store_and_build. fold gz hash name localPath.
  unfold await at 1. unfold ensureCacheDir, fs_mkdir.
  change (mkdir_fault (advanced w1 [rq] []) (DEFAULT_CACHE_DIR m))
    with (mkdir_fault w1 (DEFAULT_CACHE_DIR m)).
  rewrite Hmkdir. unfold await at 1. unfold fs_writeFile.
  change (write_fault (with_directories _ _) localPath)
    with (write_fault w1 localPath).
  rewrite Hwrite. unfold await at 1.
  assert (Hup : forall w0,
            upload env m options name localPath gz w0
            = (Ok ("file://" ++ localPath), w0)).
  { intros w0. unfold upload.
    destruct Hlocal as [-> | Hunset]; [reflexivity |].
    rewrite Hunset. destruct (s3 m); reflexivity. }
  rewrite Hup. reflexivity.
Qed.

End HappyPath.

Lemma import_succeeds_locally_witness :
  let env := Sample.env_local in
  let m := load (rt := Sample.runtime) env in
  let w := Sample.world (Sample.provider (Sample.stringify Sample.animation)) in
  exists mf w',
    importLottieAnimation (rt := Sample.runtime) env m "abc123"
      Sample.with_template w = (Ok mf, w') /\
    map Asset.url (Manifest.requiredAssets mf)
      = ["file:///srv/vfx-api/cache/lottie/lottie_abc123_e2c5a5545211.json.gz"]
    /\ directories w' = ["/srv/vfx-api/cache/lottie"] /\
    map url (requests w')
      = ["https://api.lottiefiles.com/v2/animations/abc123"; "https://x/a.json"]
    /\ timers w' = [].
Proof.
  intros env m w.
  pose proof (import_succeeds_locally (rt := Sample.runtime) env m "abc123"
                Sample.with_template w Sample.detail
                (advanced w [detail_request m "k" "abc123"] [])
                [VStr "https://x/a.json"] (VStr "https://x/a.json")
                {| Response.status := 200;
                   Response.body := Sample.stringify Sample.animation |}
                Sample.animation
                eq_refl eq_refl eq_refl eq_refl eq_refl eq_refl eq_refl
                eq_refl eq_refl (or_introl eq_refl)) as Hrun.
  do 2 eexists. split; [exact Hrun |].
  vm_compute. repeat split.
Defined.

(** ** The selected URL is a string *)

Lemma find_json_ok urls found :
  find_json urls = Ok found ->
  (exists s, found = VStr s /\ JS.includes s "json" = true) \/
  (found = VUndef /\ Forall (fun u => exists s, u = VStr s) urls).
Proof.
  induction urls as [| u urls IH]; simpl.
  - intros [= <-]. right. split; [reflexivity | constructor].
  - destruct u as [| | b | n | s | l | props]; try discriminate.
    rewrite wants_json_includes.
    destruct (JS.includes s "json") eqn:Hjson.
    + intros [= <-]. left. eauto.
    + intros Hrest. destruct (IH Hrest) as [Hfound | [-> Hall]];
        [left; exact Hfound | right].
      split; [reflexivity |]. constructor; [eauto | exact Hall].
Qed.

(** Whenever the selection over a non-empty candidate list succeeds, what
    it yields is a string, so that the request of step 3 is for that
    string itself. *)
Lemma pick_json_url_is_string urls jsonUrl :
  urls <> [] -> pick_json_url urls = Ok jsonUrl ->
  exists s, jsonUrl = VStr s /\ JS.to_string jsonUrl = s.
Proof.
  intros Hne. unfold pick_json_url.
  destruct (find_json urls) as [found |] eqn:Hfind; [| discriminate].
  intros [= <-].
  destruct (find_json_ok _ _ Hfind) as [(s & -> & Hjson) | [-> Hall]].
  - exists s. unfold JS.or. destruct s as [| c s]; [discriminate Hjson |].
    split; reflexivity.
  - destruct Hall as [| u rest [s ->] _]; [contradiction |].
    exists s. split; reflexivity.
Qed.
